(** * SaveToPlay: the background service worker and its RPC boundary

    A shallow embedding of [src/background.ts] (the privileged context:
    message listener, [handleSaveVideo], [handleSyncVideos],
    [handleGetVideoInfo], [handleGetVideoByUrl], [handleGetAllVideos]) and of
    the content script (its message listener and [handleReadClipboard], the
    page predicates, [extractVideoInfoFromCard],
    [extractVideoInfoFromButton], [updateButtonState] and
    [checkSavedStatus]), followed by the properties the specification
    states about them and further properties of the code.

    Modelling conventions.
    - JavaScript values are the inductive [value]; objects are association
      lists in insertion order.  Numbers are kept as exact decimals
      (mantissa, power of ten): rounding to IEEE doubles is not modelled.
    - Strings are byte strings: the UTF-8 form of the program's strings,
      with a surrogate that stands alone as the three bytes of its code
      unit.  A [\uXXXX] escape names one code unit; an escaped surrogate
      pair is the four bytes of its character, as when the character is
      written out.  The length of a string and the index keys of its
      spread count code units ([utf16_units]).
    - Handlers are [async] functions.  One handler call is executed as one
      uninterrupted run in a state-and-exception monad [M]; interleavings of
      concurrent requests are outside the model.
    - The catalog service [dbService] is an interface, the class
      [DbService]; what holds for every implementation is proved for every
      instance.  The module [SpecDb] is the service as the specification
      describes it.
    - What the browser answers during a call (tabs, clipboard, clock) is a
      record [Browser]; what the storage layer will reject is a list kept in
      the state, [w_faults].
    - [console.*] output is not recorded.

    The file has two parts: the definitions (values, [JSON.parse], the
    handlers and listeners, the specified catalog, the notions used in the
    statements and the data of the concrete runs), then the properties. *)

From Stdlib Require Import ZArith Ascii String List Lia.
From stdpp Require Import base option list strings pretty gmap.

Set Warnings "-register-all".
Local Open Scope string_scope.

(** The double-quote character, code 34. *)
Abbreviation DQ := (Ascii false true false false false true false false).

(** ** JavaScript values *)

Inductive value : Type :=
| VUndefined
| VNull
| VBool (b : bool)
| VNum (mantissa exp10 : Z)
| VStr (s : string)
| VArr (items : list value)
| VObj (fields : list (string * value)).

(** What can be thrown: an [Error] instance with its constructor name and
    message, or any other value, of which the handlers use at most
    [typeof error] and [String(error)]. *)
Inductive exn : Type :=
| ErrorObject (name message : string)
| OtherThrown (type_of rendering : string).

(** [error instanceof Error ? error.message : 'Unknown error'] *)
Definition error_message (e : exn) : string :=
  match e with
  | ErrorObject _ m => m
  | OtherThrown _ _ => "Unknown error"
  end.

(** ToBoolean. *)
Definition truthy (v : value) : bool :=
  match v with
  | VUndefined | VNull => false
  | VBool b => b
  | VNum m _ => negb (m =? 0)%Z
  | VStr s => negb (String.eqb s "")
  | VArr _ | VObj _ => true
  end.

Fixpoint assoc (k : string) (fs : list (string * value)) : option value :=
  match fs with
  | [] => None
  | (k', v) :: rest => if String.eqb k k' then Some v else assoc k rest
  end.

(** [o[k] = v] on an object's own properties: an existing key keeps its
    place, a new key goes last. *)
Fixpoint obj_set (k : string) (v : value) (fs : list (string * value))
  : list (string * value) :=
  match fs with
  | [] => [(k, v)]
  | (k', v') :: rest =>
      if String.eqb k k' then (k, v) :: rest else (k', v') :: obj_set k v rest
  end.

Definition TypeError_null (k : string) : exn :=
  ErrorObject "TypeError"
    ("Cannot read properties of null (reading '" ++ k ++ "')").
Definition TypeError_undefined (k : string) : exn :=
  ErrorObject "TypeError"
    ("Cannot read properties of undefined (reading '" ++ k ++ "')").

(** Property read [v.k].  Reading from [null] or [undefined] throws a
    TypeError.  The handlers read only data keys ([id], [url], [title], ...)
    which no primitive wrapper or array prototype defines, so a read from a
    primitive or an array gives [undefined]. *)
Definition get_prop (v : value) (k : string) : exn + value :=
  match v with
  | VUndefined => inl (TypeError_undefined k)
  | VNull => inl (TypeError_null k)
  | VObj fs => inr (default VUndefined (assoc k fs))
  | _ => inr VUndefined
  end.

(** The same read where it cannot throw (the receiver is known not to be
    [null] or [undefined]). *)
Definition prop (v : value) (k : string) : value :=
  match v with
  | VObj fs => default VUndefined (assoc k fs)
  | _ => VUndefined
  end.

Definition nullish (v : value) : bool :=
  match v with
  | VUndefined | VNull => true
  | _ => false
  end.

(** ** Strings as sequences of UTF-16 code units *)

(** The two surrogates of a character of four bytes, each as the three
    bytes of its code unit. *)
Definition split_pair (c1 c2 c3 c4 : ascii) : string * string :=
  let c :=
    ((N_of_ascii c1 - 240) * 262144 + (N_of_ascii c2 - 128) * 4096
     + (N_of_ascii c3 - 128) * 64 + (N_of_ascii c4 - 128) - 65536)%N in
  (String "237"
     (String (ascii_of_N (160 + c / 1024 / 64))
        (String (ascii_of_N (128 + (c / 1024) mod 64)) "")),
   String "237"
     (String (ascii_of_N (176 + (c mod 1024) / 64))
        (String (ascii_of_N (128 + c mod 64)) ""))).

(** The code units of a string, each as a string of its own: a character of
    up to three bytes is one unit, a character of four bytes is two. *)
Fixpoint utf16_units (s : list ascii) : list string :=
  match s with
  | [] => []
  | c1 :: r1 =>
      if (nat_of_ascii c1 <? 192)%nat then String c1 "" :: utf16_units r1
      else
        match r1 with
        | [] => [String c1 ""]
        | c2 :: r2 =>
            if (nat_of_ascii c1 <? 224)%nat then
              String c1 (String c2 "") :: utf16_units r2
            else
              match r2 with
              | [] => [String c1 (String c2 "")]
              | c3 :: r3 =>
                  if (nat_of_ascii c1 <? 240)%nat then
                    String c1 (String c2 (String c3 "")) :: utf16_units r3
                  else
                    match r3 with
                    | [] => [String c1 (String c2 (String c3 ""))]
                    | c4 :: r4 =>
                        fst (split_pair c1 c2 c3 c4)
                        :: snd (split_pair c1 c2 c3 c4) :: utf16_units r4
                    end
              end
        end
  end.

(** [s.length] *)
Definition utf16_length (s : string) : nat :=
  length (utf16_units (list_ascii_of_string s)).

(** ** [JSON.parse]

    A recursive-descent reader for the JSON grammar (RFC 8259).  The three
    mutually recursive readers take fuel; each character of the input costs
    at most two units, and [JSON_parse] supplies that much. *)
Module JSON.

Definition is_ws (c : ascii) : bool :=
  match c with
  | " "%char | "009"%char | "010"%char | "013"%char => true
  | _ => false
  end.

Fixpoint skip_ws (s : list ascii) : list ascii :=
  match s with
  | c :: r => if is_ws c then skip_ws r else s
  | [] => []
  end.

Definition digit_val (c : ascii) : option Z :=
  let n := nat_of_ascii c in
  if (48 <=? n)%nat && (n <=? 57)%nat then Some (Z.of_nat (n - 48)) else None.

Definition hex_val (c : ascii) : option nat :=
  let n := nat_of_ascii c in
  if (48 <=? n)%nat && (n <=? 57)%nat then Some (n - 48)%nat
  else if (65 <=? n)%nat && (n <=? 70)%nat then Some (n - 55)%nat
  else if (97 <=? n)%nat && (n <=? 102)%nat then Some (n - 87)%nat
  else None.

(** One UTF-16 code unit as bytes. *)
Definition encode_unit (u : nat) : list ascii :=
  if (u <? 128)%nat then [ascii_of_nat u]
  else if (u <? 2048)%nat then
    [ascii_of_nat (192 + u / 64); ascii_of_nat (128 + u mod 64)]
  else
    [ascii_of_nat (224 + u / 4096); ascii_of_nat (128 + (u / 64) mod 64);
     ascii_of_nat (128 + u mod 64)].

(** A string of the program is a sequence of UTF-16 code units.  It is held
    here as bytes: a character outside the basic plane, which is a high
    surrogate followed by a low one, as the four bytes of the character,
    every other code unit as its one to three bytes.  The payload text has
    its own characters in this form already; an escape [\uXXXX] names one
    code unit.  [join_surrogates] gives a high surrogate that has come to
    stand before a low one (either of them written as an escape) the four
    bytes of the character they form. *)
Definition is_high_surrogate (b1 b2 b3 : ascii) : bool :=
  (nat_of_ascii b1 =? 237)%nat &&
  (160 <=? nat_of_ascii b2)%nat && (nat_of_ascii b2 <=? 175)%nat &&
  (128 <=? nat_of_ascii b3)%nat && (nat_of_ascii b3 <=? 191)%nat.

Definition is_low_surrogate (b1 b2 b3 : ascii) : bool :=
  (nat_of_ascii b1 =? 237)%nat &&
  (176 <=? nat_of_ascii b2)%nat && (nat_of_ascii b2 <=? 191)%nat &&
  (128 <=? nat_of_ascii b3)%nat && (nat_of_ascii b3 <=? 191)%nat.

(** The character of a surrogate pair, as bytes.  [h] and [l] are the low
    ten bits of the high and of the low surrogate. *)
Definition encode_pair (h l : nat) : list ascii :=
  let c := (65536 + N.of_nat h * 1024 + N.of_nat l)%N in
  [ascii_of_N (240 + c / 262144)%N; ascii_of_N (128 + (c / 4096) mod 64)%N;
   ascii_of_N (128 + (c / 64) mod 64)%N; ascii_of_N (128 + c mod 64)%N].

Fixpoint join_surrogates (s : list ascii) : list ascii :=
  match s with
  | [] => []
  | b1 :: tl =>
      match tl with
      | b2 :: b3 :: b4 :: b5 :: b6 :: rest =>
          if is_high_surrogate b1 b2 b3 && is_low_surrogate b4 b5 b6 then
            (encode_pair
               ((nat_of_ascii b2 - 160) * 64 + (nat_of_ascii b3 - 128))
               ((nat_of_ascii b5 - 176) * 64 + (nat_of_ascii b6 - 128))
             ++ join_surrogates rest)%list
          else b1 :: join_surrogates tl
      | _ => b1 :: join_surrogates tl
      end
  end.

(** The characters after an opening quote, up to the closing one. *)
Fixpoint read_string (s : list ascii) (acc : list ascii)
  : option (string * list ascii) :=
  match s with
  | [] => None
  | DQ :: r => Some (string_of_list_ascii (join_surrogates (rev acc)), r)
  | "\"%char :: r =>
      match r with
      | DQ :: r' => read_string r' (DQ :: acc)
      | "\"%char :: r' => read_string r' ("\"%char :: acc)
      | "/"%char :: r' => read_string r' ("/"%char :: acc)
      | "b"%char :: r' => read_string r' ("008"%char :: acc)
      | "f"%char :: r' => read_string r' ("012"%char :: acc)
      | "n"%char :: r' => read_string r' ("010"%char :: acc)
      | "r"%char :: r' => read_string r' ("013"%char :: acc)
      | "t"%char :: r' => read_string r' ("009"%char :: acc)
      | "u"%char :: h1 :: h2 :: h3 :: h4 :: r' =>
          match hex_val h1, hex_val h2, hex_val h3, hex_val h4 with
          | Some a, Some b, Some c, Some d =>
              read_string r'
                (rev (encode_unit (((a * 16 + b) * 16 + c) * 16 + d)) ++ acc)
          | _, _, _, _ => None
          end
      | _ => None
      end
  | c :: r =>
      if (nat_of_ascii c <? 32)%nat then None else read_string r (c :: acc)
  end.

(** A maximal run of decimal digits, folded into [acc]; also its length. *)
Fixpoint read_digits (s : list ascii) (acc : Z) (n : nat)
  : Z * nat * list ascii :=
  match s with
  | c :: r =>
      match digit_val c with
      | Some d => read_digits r (acc * 10 + d)%Z (S n)
      | None => (acc, n, s)
      end
  | [] => (acc, n, s)
  end.

(** The integer part: [0] alone, or a digit run without a leading zero. *)
Definition read_int (s : list ascii) : option (Z * list ascii) :=
  match s with
  | "0"%char :: r => Some (0%Z, r)
  | _ =>
      match read_digits s 0 0 with
      | (_, O, _) => None
      | (m, _, r) => Some (m, r)
      end
  end.

Definition read_frac (m : Z) (s : list ascii) : option (Z * Z * list ascii) :=
  match s with
  | "."%char :: r =>
      match read_digits r m 0 with
      | (_, O, _) => None
      | (m', n, r') => Some (m', (- Z.of_nat n)%Z, r')
      end
  | _ => Some (m, 0%Z, s)
  end.

Definition read_exp (s : list ascii) : option (Z * list ascii) :=
  let digits neg r :=
    match read_digits r 0 0 with
    | (_, O, _) => None
    | (e, _, r') => Some ((if neg : bool then - e else e)%Z, r')
    end in
  match s with
  | "e"%char :: r | "E"%char :: r =>
      match r with
      | "+"%char :: r' => digits false r'
      | "-"%char :: r' => digits true r'
      | _ => digits false r
      end
  | _ => Some (0%Z, s)
  end.

Definition read_number (s : list ascii) : option (value * list ascii) :=
  let '(neg, s1) :=
    match s with
    | "-"%char :: r => (true, r)
    | _ => (false, s)
    end in
  match read_int s1 with
  | None => None
  | Some (m, s2) =>
      match read_frac m s2 with
      | None => None
      | Some (m', e1, s3) =>
          match read_exp s3 with
          | None => None
          | Some (e2, s4) =>
              Some (VNum (if neg then - m' else m') (e1 + e2), s4)
          end
      end
  end.

Fixpoint read_value (fuel : nat) (s : list ascii) {struct fuel}
  : option (value * list ascii) :=
  match fuel with
  | O => None
  | S fuel' =>
      match skip_ws s with
      | "n"%char :: "u"%char :: "l"%char :: "l"%char :: r => Some (VNull, r)
      | "t"%char :: "r"%char :: "u"%char :: "e"%char :: r =>
          Some (VBool true, r)
      | "f"%char :: "a"%char :: "l"%char :: "s"%char :: "e"%char :: r =>
          Some (VBool false, r)
      | DQ :: r =>
          match read_string r [] with
          | Some (str, r') => Some (VStr str, r')
          | None => None
          end
      | "["%char :: r =>
          match skip_ws r with
          | "]"%char :: r' => Some (VArr [], r')
          | _ =>
              match read_elements fuel' r [] with
              | Some (xs, r') => Some (VArr xs, r')
              | None => None
              end
          end
      | "{"%char :: r =>
          match skip_ws r with
          | "}"%char :: r' => Some (VObj [], r')
          | _ =>
              match read_members fuel' r [] with
              | Some (fs, r') => Some (VObj fs, r')
              | None => None
              end
          end
      | s' => read_number s'
      end
  end
with read_elements (fuel : nat) (s : list ascii) (acc : list value)
       {struct fuel} : option (list value * list ascii) :=
  match fuel with
  | O => None
  | S fuel' =>
      match read_value fuel' s with
      | None => None
      | Some (v, r) =>
          match skip_ws r with
          | ","%char :: r' => read_elements fuel' r' (v :: acc)
          | "]"%char :: r' => Some (rev (v :: acc), r')
          | _ => None
          end
      end
  end
with read_members (fuel : nat) (s : list ascii)
       (acc : list (string * value)) {struct fuel}
  : option (list (string * value) * list ascii) :=
  match fuel with
  | O => None
  | S fuel' =>
      match skip_ws s with
      | DQ :: r =>
          match read_string r [] with
          | None => None
          | Some (k, r1) =>
              match skip_ws r1 with
              | ":"%char :: r2 =>
                  match read_value fuel' r2 with
                  | None => None
                  | Some (v, r3) =>
                      match skip_ws r3 with
                      | ","%char :: r4 =>
                          read_members fuel' r4 (obj_set k v acc)
                      | "}"%char :: r4 => Some (obj_set k v acc, r4)
                      | _ => None
                      end
                  end
              | _ => None
              end
          end
      | _ => None
      end
  end.

(** [JSON.parse(text)]; [None] stands for the SyntaxError it throws. *)
Definition parse (text : string) : option value :=
  let s := list_ascii_of_string text in
  match read_value (2 * length s + 2) s with
  | Some (v, r) =>
      match skip_ws r with
      | [] => Some v
      | _ => None
      end
  | None => None
  end.

End JSON.

Definition JSON_parse : string -> option value := JSON.parse.

(** Payload texts are written with single quotes in this file; [dq] turns
    them into the double quotes of JSON. *)
Definition dq (s : string) : string :=
  string_of_list_ascii
    (map (fun c => if Ascii.eqb c "'"%char then DQ else c)
       (list_ascii_of_string s)).

(** ** The catalog service, as the handlers see it

    [background.ts] imports [dbService] and calls five of its methods.  A
    method either returns or rejects; a rejected write leaves the database as
    it was. *)
Class DbService := {
  db : Type;
  getVideo : value -> db -> exn + value;
  getVideoByUrl : value -> db -> exn + value;
  getAllVideos : db -> exn + list value;
  addVideo : value -> db -> exn + db;
  updateVideo : value -> db -> exn + db;
}.

(** ** The browser around one handler call

    What the ambient [chrome.*], [navigator.*], [Date] and URI functions
    answer while a handler runs. *)
Record Tab := { tab_id : option nat }.

(** [{success, text}] as produced by the injected clipboard reader and by the
    content script's [readClipboard] reply. *)
Record ClipboardReply := { reply_success : bool; reply_text : option string }.

Record Browser := {
  (** [chrome.runtime.id] *)
  runtime_id : string;
  (** [chrome.tabs.query({active: true, currentWindow: true})] *)
  tabs_query : exn + list Tab;
  (** [chrome.scripting.executeScript] on a tab: each entry's [result] *)
  scripting_executeScript : nat -> exn + list (option ClipboardReply);
  (** [chrome.tabs.sendMessage(tab.id, {action: 'readClipboard'})] *)
  tabs_sendMessage : nat -> exn + option ClipboardReply;
  (** [navigator.clipboard.readText()] in the calling context *)
  clipboard_readText : exn + string;
  (** whether [navigator.clipboard] exists in the content script *)
  clipboard_available : bool;
  (** [chrome.tabs.create({url, active: false})]: [Some e] when it rejects *)
  tabs_create : string -> option exn;
  (** [encodeURIComponent(v)], a URIError included *)
  encodeURIComponent : value -> exn + string;
  (** the n-th evaluation of [new Date().toISOString()] *)
  toISOString : nat -> string;
}.

Record MessageSender := { sender_id : option string }.

Section Background.

Context `{DbService}.

(** ** State and effects *)
Record world := World {
  w_db : db;
  (** outcomes the storage layer has in store for the coming [dbService]
      calls: [Some e] makes the next call reject with [e] *)
  w_faults : list (option exn);
  (** how many times the clock has been read *)
  w_clock : nat;
  (** urls handed to [chrome.tabs.create], oldest first *)
  w_tabs : list string;
  (** what was passed to [sendResponse], oldest first *)
  w_sent : list value;
}.

Definition M (A : Type) : Type := world -> (exn + A) * world.

Definition ret {A} (a : A) : M A := fun w => (inr a, w).
Definition bind {A B} (m : M A) (k : A -> M B) : M B :=
  fun w =>
    match m w with
    | (inr a, w') => k a w'
    | (inl e, w') => (inl e, w')
    end.
(** [try { m } catch (error) { handler error }] *)
Definition try_catch {A} (m : M A) (handler : exn -> M A) : M A :=
  fun w =>
    match m w with
    | (inl e, w') => handler e w'
    | r => r
    end.
Definition lift {A} (r : exn + A) : M A := fun w => (r, w).

Notation "'let*' x ':=' m 'in' k" := (bind m (fun x => k))
  (at level 10, x pattern, m at level 100, k at level 200).

(** The world after one more response. *)
Definition responded (w : world) (response : value) : world :=
  World (w_db w) (w_faults w) (w_clock w) (w_tabs w) (w_sent w ++ [response]).

Definition sendResponse (response : value) : M unit :=
  fun w => (inr tt, responded w response).

(** [new Date().toISOString()] *)
Definition now (b : Browser) : M string :=
  fun w =>
    (inr (toISOString b (w_clock w)),
     World (w_db w) (w_faults w) (S (w_clock w)) (w_tabs w) (w_sent w)).

(** [await chrome.tabs.create({ url, active: false })] *)
Definition chrome_tabs_create (b : Browser) (url : string) : M unit :=
  fun w =>
    match tabs_create b url with
    | Some e => (inl e, w)
    | None =>
        (inr tt, World (w_db w) (w_faults w) (w_clock w) (w_tabs w ++ [url])
                   (w_sent w))
    end.

(** The storage layer's verdict on the next call. *)
Definition next_fault (w : world) : option exn * world :=
  match w_faults w with
  | [] => (None, w)
  | f :: rest => (f, World (w_db w) rest (w_clock w) (w_tabs w) (w_sent w))
  end.

(** [await dbService.read(...)] *)
Definition db_read {A} (read : db -> exn + A) : M A :=
  fun w =>
    match next_fault w with
    | (Some e, w') => (inl e, w')
    | (None, w') => (read (w_db w'), w')
    end.

(** [await dbService.write(...)] *)
Definition db_write (write : db -> exn + db) : M unit :=
  fun w =>
    match next_fault w with
    | (Some e, w') => (inl e, w')
    | (None, w') =>
        match write (w_db w') with
        | inl e => (inl e, w')
        | inr d =>
            (inr tt, World d (w_faults w') (w_clock w') (w_tabs w') (w_sent w'))
        end
    end.

(** ** Responses *)
Definition response_failure (error : string) : value :=
  VObj [("success", VBool false); ("error", VStr error)].
Definition response_message (message : string) : value :=
  VObj [("success", VBool true); ("message", VStr message)].

(** ** [handleSaveVideo] *)

(** Own enumerable properties copied by [{...v}]: the fields of an object,
    one index key per element of an array or per code unit of a string,
    nothing for other primitives. *)
Fixpoint index_fields (i : nat) (xs : list value) : list (string * value) :=
  match xs with
  | [] => []
  | x :: rest => (pretty i, x) :: index_fields (S i) rest
  end.

Definition spread (v : value) : list (string * value) :=
  match v with
  | VObj fs => fs
  | VArr xs => index_fields 0 xs
  | VStr s => index_fields 0 (map VStr (utf16_units (list_ascii_of_string s)))
  | _ => []
  end.

(** [videoInfo.url && videoInfo.id] *)
Definition carries_both (videoInfo : value) : bool :=
  truthy (prop videoInfo "url") && truthy (prop videoInfo "id").

(** [{...videoInfo, savedAt, lastSyncedAt}] *)
Definition stamped (videoInfo : value) (savedAt lastSyncedAt : string)
  : value :=
  VObj (obj_set "lastSyncedAt" (VStr lastSyncedAt)
          (obj_set "savedAt" (VStr savedAt) (spread videoInfo))).

Definition handleSaveVideo (b : Browser) (videoInfo : value) : M unit :=
  try_catch
    (let* url := lift (get_prop videoInfo "url") in
     let* both :=
       (if truthy url
        then let* id := lift (get_prop videoInfo "id") in ret (truthy id)
        else ret false) in
     if both : bool then
       let* _ := db_write (addVideo videoInfo) in
       sendResponse (response_message "Video saved to database")
     else
       let* encoded := lift (encodeURIComponent b url) in
       let playUrl := "play://add?url=" ++ encoded in
       let* _ := chrome_tabs_create b playUrl in
       let* savedAt := now b in
       let* lastSyncedAt := now b in
       let video := stamped videoInfo savedAt lastSyncedAt in
       let* _ := db_write (addVideo video) in
       sendResponse (response_message "Video saved to Play"))
    (fun error => sendResponse (response_failure (error_message error))).

(** ** [handleSyncVideos] *)

(** [!!text] for a string. *)
Definition nonempty (text : string) : bool := negb (String.eqb text "").

(** Approach 1 (lines 91-250): the active tab, first through an injected
    reader, and when the injection itself throws through the content
    script.  The result is [(clipboardText, dataSource)]; a reply without
    text leaves [clipboardText] falsy, written as the empty string. *)
Definition read_via_tab (b : Browser) : string * string :=
  match tabs_query b with
  | inr (tab :: _) =>
      match tab_id tab with
      | Some (S _ as id) =>
          match scripting_executeScript b id with
          | inr results =>
              match results with
              | Some result :: _ =>
                  if reply_success result
                  then (default "" (reply_text result), "injected_script")
                  else ("", "unknown")
              | _ => ("", "unknown")
              end
          | inl injectionError =>
              match tabs_sendMessage b id with
              | inr (Some response) =>
                  if reply_success response
                  then (default "" (reply_text response), "content_script")
                  else ("", "unknown")
              | _ => ("", "unknown")
              end
          end
      | _ => ("", "unknown")
      end
  | _ => ("", "unknown")
  end.

(** Approach 1, then approach 2 (lines 253-268) when no text came. *)
Definition acquire (b : Browser) : string * string :=
  let '(clipboardText, dataSource) := read_via_tab b in
  if negb (nonempty clipboardText) then
    match clipboard_readText b with
    | inr text => (text, "background_script")
    | inl backgroundClipboardError => (clipboardText, dataSource)
    end
  else (clipboardText, dataSource).

(** [typeof v === 'object'] *)
Definition typeof_object (v : value) : bool :=
  match v with
  | VNull | VArr _ | VObj _ => true
  | _ => false
  end.

(** Lines 300-304: the descriptor list of a parsed payload. *)
Definition normalize (parsed : value) : list value :=
  match parsed with
  | VArr items => items (* Array.isArray(parsed) *)
  | _ => if truthy parsed && typeof_object parsed then [parsed] else []
  end.

(** Lines 331-353: the record written for a descriptor. *)
Definition to_video (playVideo : value) (last_synced_at : string) : value :=
  VObj
    [ ("id", prop playVideo "id");
      ("title", prop playVideo "title");
      ("description", prop playVideo "description");
      ("url", prop playVideo "url");
      ("date_published", prop playVideo "date_published");
      ("second_url", prop playVideo "second_url");
      ("channel", prop playVideo "channel");
      ("duration_seconds", prop playVideo "duration_seconds");
      ("source", prop playVideo "source");
      ("notes", prop playVideo "notes");
      ("tags", prop playVideo "tags");
      ("artwork_url_high_res", prop playVideo "artwork_url_high_res");
      ("is_new", prop playVideo "is_new");
      ("star_rating", prop playVideo "star_rating");
      ("duration", prop playVideo "duration");
      ("artwork_url", prop playVideo "artwork_url");
      ("date_watched", prop playVideo "date_watched");
      ("date_added", prop playVideo "date_added");
      ("start_at_seconds", prop playVideo "start_at_seconds");
      ("saved_at", prop playVideo "date_added");
      ("last_synced_at", VStr last_synced_at) ].

(** The object literal is evaluated top to bottom: the read of
    [playVideo.id] comes first and throws when [playVideo] is [null]; the
    clock is read last. *)
Definition convert (b : Browser) (playVideo : value) : M value :=
  let* _ := lift (get_prop playVideo "id") in
  let* last_synced_at := now b in
  ret (to_video playVideo last_synced_at).

(** Lines 329-367: the body of the loop for one descriptor, a [try] with
    its [catch]; the result is the two counters after it. *)
Definition reconcile (b : Browser) (playVideo : value)
    (videosAdded videosUpdated : nat) : M (nat * nat) :=
  try_catch
    (let* video := convert b playVideo in
     let* existingVideo := db_read (getVideo (prop playVideo "id")) in
     if truthy existingVideo then
       let* _ := db_write (updateVideo video) in
       ret (videosAdded, S videosUpdated)
     else
       let* _ := db_write (addVideo video) in
       ret (S videosAdded, videosUpdated))
    (fun error =>
       (* console.error(`Error processing video ${playVideo.id}:`, error) *)
       let* _ := lift (get_prop playVideo "id") in
       ret (videosAdded, videosUpdated)).

(** Lines 328-368: the loop. *)
Fixpoint process (b : Browser) (playVideos : list value)
    (videosAdded videosUpdated : nat) : M (nat * nat) :=
  match playVideos with
  | [] => ret (videosAdded, videosUpdated)
  | playVideo :: rest =>
      let* counters := reconcile b playVideo videosAdded videosUpdated in
      process b rest (fst counters) (snd counters)
  end.

Definition number (n : nat) : value := VNum (Z.of_nat n) 0.

Definition response_no_clipboard (dataSource : string) : value :=
  VObj
    [ ("success", VBool false);
      ("error",
       VStr "Could not read clipboard from any source. Please use manual paste.");
      ("needsManualPaste", VBool true);
      ("debugInfo",
       VObj
         [ ("dataSource", VStr dataSource);
           ("message",
            VStr "Both content script and background script clipboard reading failed")
         ]) ].

Definition response_manual_paste (error : string) : value :=
  VObj
    [ ("success", VBool false);
      ("error", VStr error);
      ("needsManualPaste", VBool true) ].

Definition response_synced (videosAdded videosUpdated : nat) : value :=
  VObj
    [ ("success", VBool true);
      ("message",
       VStr ("Synced " ++ pretty videosAdded ++ " new videos and updated "
             ++ pretty videosUpdated ++ " existing videos."));
      ("videosAdded", number videosAdded);
      ("videosUpdated", number videosUpdated) ].

Definition handleSyncVideos (b : Browser) : M unit :=
  try_catch
    (let '(clipboardText, dataSource) := acquire b in
     if negb (nonempty clipboardText) then
       sendResponse (response_no_clipboard dataSource)
     else if negb (nonempty clipboardText) then
       sendResponse
         (response_manual_paste
            "No data found in clipboard. Please ensure your shortcut copies JSON data.")
     else
       match JSON_parse clipboardText with
       | None =>
           sendResponse
             (response_manual_paste
                "Invalid JSON data in clipboard. Please check your shortcut output.")
       | Some parsed =>
           let playVideos := normalize parsed in
           if (length playVideos =? 0)%nat then
             sendResponse
               (response_manual_paste "No video data found in clipboard.")
           else
             let* counters := process b playVideos 0 0 in
             sendResponse (response_synced (fst counters) (snd counters))
       end)
    (fun error => sendResponse (response_manual_paste (error_message error))).

(** ** The read handlers *)

Definition handleGetVideoInfo (url : value) : M unit :=
  try_catch
    (let* video := db_read (getVideoByUrl url) in
     sendResponse (VObj [("success", VBool true); ("video", video)]))
    (fun error => sendResponse (response_failure (error_message error))).

Definition handleGetVideoByUrl (url : value) : M unit :=
  try_catch
    (let* video := db_read (getVideoByUrl url) in
     sendResponse (VObj [("success", VBool true); ("video", video)]))
    (fun error => sendResponse (response_failure (error_message error))).

Definition handleGetAllVideos : M unit :=
  try_catch
    (let* videos := db_read getAllVideos in
     sendResponse (VObj [("success", VBool true); ("videos", VArr videos)]))
    (fun error => sendResponse (response_failure (error_message error))).

(** ** The message listeners *)

(** [sender.id !== chrome.runtime.id] *)
Definition foreign (b : Browser) (sender : MessageSender) : bool :=
  match sender_id sender with
  | Some id => negb (String.eqb id (runtime_id b))
  | None => true
  end.

(** [request.action === name] *)
Definition is_action (action : value) (name : string) : bool :=
  match action with
  | VStr a => String.eqb a name
  | _ => false
  end.

(** The listener of [background.ts] (lines 15-45).  The result is what the
    listener returns: [true] keeps the channel open for the handler's
    response.  The handler's run is placed where the listener starts it. *)
Definition background_onMessage (b : Browser) (request : value)
    (sender : MessageSender) : M bool :=
  if foreign b sender then
    (* console.warn('Received message from unknown sender:', sender) *)
    ret false
  else
    let* action := lift (get_prop request "action") in
    if is_action action "saveVideo" then
      let* _ := handleSaveVideo b (prop request "data") in ret true
    else if is_action action "syncVideos" then
      let* _ := handleSyncVideos b in ret true
    else if is_action action "getVideoInfo" then
      let* _ := handleGetVideoInfo (prop request "url") in ret true
    else if is_action action "getVideoByUrl" then
      let* _ := handleGetVideoByUrl (prop request "url") in ret true
    else if is_action action "getAllVideos" then
      let* _ := handleGetAllVideos in ret true
    else
      let* _ := sendResponse (response_failure "Unknown action") in
      ret false.

(** [handleReadClipboard] of the content script. *)
Definition handleReadClipboard (b : Browser) : M unit :=
  try_catch
    (if negb (clipboard_available b) then
       sendResponse
         (response_failure "Clipboard API not available in this context")
     else
       let* clipboardText := lift (clipboard_readText b) in
       sendResponse
         (VObj
            [ ("success", VBool true);
              ("text", VStr clipboardText);
              ("debugInfo",
               VObj
                 [ ("textLength", number (utf16_length clipboardText));
                   ("hasContent",
                    VBool (0 <? utf16_length clipboardText)%nat) ]) ]))
    (fun error =>
       let errorMessage :=
         match error with
         | ErrorObject _ message => message
         | OtherThrown _ rendering => rendering
         end in
       sendResponse
         (VObj
            [ ("success", VBool false);
              ("error", VStr errorMessage);
              ("debugInfo",
               VObj
                 [ ("errorType",
                    VStr
                      match error with
                      | ErrorObject name _ => name
                      | OtherThrown type_of _ => type_of
                      end);
                   ("errorMessage", VStr errorMessage) ]) ])).

(** The listener of the content script. *)
Definition content_onMessage (b : Browser) (request : value)
    (sender : MessageSender) : M bool :=
  if foreign b sender then
    let* _ := sendResponse (response_failure "Unauthorized sender") in
    ret false
  else
    let* action := lift (get_prop request "action") in
    if is_action action "readClipboard" then
      let* _ := handleReadClipboard b in ret true
    else
      let* _ := sendResponse (response_failure "Unknown action") in
      ret false.

(** ** Sequences of writes *)

(** The two operations that write to the catalog, each with the browser it
    runs in. *)
Inductive operation : Type :=
| SaveVideo (b : Browser) (videoInfo : value)
| SyncVideos (b : Browser).

Definition perform (op : operation) (w : world) : world :=
  match op with
  | SaveVideo b videoInfo => snd (handleSaveVideo b videoInfo w)
  | SyncVideos b => snd (handleSyncVideos b w)
  end.

Fixpoint perform_all (ops : list operation) (w : world) : world :=
  match ops with
  | [] => w
  | op :: rest => perform_all rest (perform op w)
  end.

(** The descriptor list a sync in browser [b] works through: empty when no
    text is acquired or the text does not parse. *)
Definition descriptors (b : Browser) : list value :=
  match JSON_parse (fst (acquire b)) with
  | Some parsed => normalize parsed
  | None => []
  end.

(** ** Notions used in the statements *)

(** A computation is silent when it never calls [sendResponse]. *)
Definition silent {A} (m : M A) : Prop :=
  forall w, w_sent (snd (m w)) = w_sent w.

End Background.

(** ** The catalog service of the specification

    The module [@/services/db.service] is not among the sources at hand.
    Sections 3, 4.1 and 4.2 of the specification describe it, and the
    definitions of this module follow that description. *)
Module SpecDb.

(** Modelled from the spec: the key of a record in the missing
    [db.service] store.  [id] is a string and the primary key (section 3);
    a descriptor without [id] fails to reconcile (section 4.3): a value that
    is not a string is no key. *)
Definition key_of (id : value) : option string :=
  match id with
  | VStr k => Some k
  | _ => None
  end.

(** Modelled from the spec: the rejection of the missing [db.service] when
    a call needs a key and gets none (the storage error of section 4.1). *)
Definition InvalidKey : exn :=
  ErrorObject "DataError" "The record store needs a string id as key".

(** Modelled from the spec: [get(id)] of the missing [db.service] store,
    the record or nothing (section 4.1). *)
Definition get (id : value) (store : gmap string value) : exn + value :=
  match key_of id with
  | Some k => inr (default VUndefined (store !! k))
  | None => inl InvalidKey
  end.

(** Modelled from the spec: [put(record)] of the missing [db.service]
    store, an unconditional insert-or-replace keyed by [id] (section 4.1). *)
Definition put (record : value) (store : gmap string value)
  : exn + gmap string value :=
  match key_of (prop record "id") with
  | Some k => inr (<[k := record]> store)
  | None => inl InvalidKey
  end.

Definition has_url (u : string) (record : value) : bool :=
  match prop record "url" with
  | VStr u' => String.eqb u u'
  | _ => false
  end.

(** Modelled from the spec: [getByUrl(url)] of the missing [db.service]
    store, the first match or nothing; no uniqueness of urls is enforced
    (section 4.1). *)
Definition getByUrl (url : value) (store : gmap string value) : exn + value :=
  match url with
  | VStr u =>
      inr (default VUndefined
             (snd <$> List.find (fun kr => has_url u (snd kr))
                        (map_to_list store)))
  | _ => inl InvalidKey
  end.

(** Modelled from the spec: [getAll()] of the missing [db.service] store
    (section 4.1). *)
Definition getAll (store : gmap string value) : exn + list value :=
  inr (snd <$> map_to_list store).

(** Modelled from the spec: the missing catalog service [dbService].
    [addVideo] and [updateVideo] are both [put]; the three reads delegate
    to the store (section 4.2). *)
#[export] Instance service : DbService := {|
  db := gmap string value;
  getVideo := get;
  getVideoByUrl := getByUrl;
  getAllVideos := getAll;
  addVideo := put;
  updateVideo := put;
|}.

End SpecDb.
Export SpecDb.

(** ** Notions used in the statements, and fixtures *)





(** The payload is keyed by [k]. *)
Definition writes_to (k : string) (payload : value) : bool :=
  match prop payload "id" with
  | VStr k' => String.eqb k k'
  | _ => false
  end.

(** The payload or record is marked as watched: [is_new] is ['No']. *)
Definition says_No (payload : value) : bool :=
  match prop payload "is_new" with
  | VStr s => String.eqb s "No"
  | _ => false
  end.

(** The operation carries no payload for [k] other than watched ones. *)
Definition keeps_No (k : string) (op : operation) : bool :=
  match op with
  | SaveVideo _ videoInfo => negb (writes_to k videoInfo) || says_No videoInfo
  | SyncVideos b =>
      forallb (fun d => negb (writes_to k d) || says_No d) (descriptors b)
  end.

Definition is_digit (c : ascii) : bool :=
  match c with
  | "0" | "1" | "2" | "3" | "4" | "5" | "6" | "7" | "8" | "9" => true
  | _ => false
  end%char.

Definition digit_headed (s : string) : bool :=
  match s with
  | EmptyString => true
  | String c _ => is_digit c
  end.



(** [encodeURIComponent] on a string: every byte other than the unreserved
    characters becomes [%XX]. *)
Definition unreserved (c : ascii) : bool :=
  let n := nat_of_ascii c in
  ((65 <=? n)%nat && (n <=? 90)%nat) || ((97 <=? n)%nat && (n <=? 122)%nat)
  || ((48 <=? n)%nat && (n <=? 57)%nat)
  || existsb (Ascii.eqb c)
       ["-"; "_"; "."; "!"; "~"; "*"; "'"; "("; ")"]%char.

Definition hex_digit (n : nat) : ascii :=
  if (n <? 10)%nat then ascii_of_nat (48 + n) else ascii_of_nat (55 + n).

Definition percent_encode (s : string) : string :=
  string_of_list_ascii
    (flat_map
       (fun c =>
          if unreserved c then [c]
          else ["%"%char; hex_digit (nat_of_ascii c / 16);
                hex_digit (nat_of_ascii c mod 16)])
       (list_ascii_of_string s)).

(** The n-th reading of the clock, for the few readings the runs below
    take: n milliseconds into 2025. *)
Definition clock (n : nat) : string :=
  "2025-01-01T00:00:00.00" ++ pretty n ++ "Z".

(** A browser of the extension [save-to-play] with no active tab, whose
    clipboard holds [text]. *)
Definition browser_with_clipboard (text : string) : Browser := {|
  runtime_id := "save-to-play";
  tabs_query := inr [];
  scripting_executeScript :=
    fun _ => inl (ErrorObject "Error" "Cannot access contents of the page");
  tabs_sendMessage :=
    fun _ => inl (ErrorObject "Error" "Receiving end does not exist");
  clipboard_readText := inr text;
  clipboard_available := true;
  tabs_create := fun _ => None;
  encodeURIComponent := fun v =>
    match v with
    | VStr s => inr (percent_encode s)
    | VNull => inr "null"
    | VBool true => inr "true"
    | VBool false => inr "false"
    | _ => inr "undefined"
    end;
  toISOString := clock;
|}.

Definition world_with (store : gmap string value) : world :=
  World store [] 0 [] [].

Definition other_extension : MessageSender :=
  {| sender_id := Some "some-other-extension" |}.

(** The store that holds one record, [a], saved in 2020 and watched. *)
Definition record_a : value :=
  VObj [ ("id", VStr "a"); ("title", VStr "A");
         ("is_new", VStr "No");
         ("saved_at", VStr "2020-01-01T00:00:00.000Z") ].

Definition store_a : gmap string value := {[ "a" := record_a ]}.

(** A payload that carries [a] again, added in 2021 and marked as new. *)
Definition payload_a : string :=
  dq "[{'id':'a','title':'A','is_new':'Yes','date_added':'2021-06-01T00:00:00.000Z'}]".

(** The descriptor that [payload_a] parses to. *)
Definition descriptor_a : value :=
  VObj [ ("id", VStr "a"); ("title", VStr "A"); ("is_new", VStr "Yes");
         ("date_added", VStr "2021-06-01T00:00:00.000Z") ].

(** A payload that carries [a] as watched, and another video. *)
Definition payload_a_watched : string :=
  dq "[{'id':'a','title':'A','is_new':'No'},{'id':'b','is_new':'Yes'}]".

Definition video_v1 : value :=
  VObj [("id", VStr "v1"); ("url", VStr "https://x/v1"); ("title", VStr "T")].

Definition video_v2 : value := VObj [("id", VStr "v2"); ("title", VStr "T")].

Definition video_v3 : value := VObj [("url", VStr "https://x/v3")].

(** * The content script: pages, cards and buttons

    The functions of the content script that decide something are embedded
    here over what the page answers: [window.location] is a record
    [Location], the result of the queries a function makes on an element is a
    record ([Card], [Button]).  Building and placing elements, notifications
    and logging are left out. *)

(** ** Which page this is *)

Record Location := {
  hostname : string;
  pathname : string;
  search : string;
}.

(** [s.startsWith(p)] *)
Definition startsWith (s p : string) : bool := String.prefix p s.

(** [s.includes(needle)] *)
Fixpoint includes (s needle : string) : bool :=
  String.prefix needle s ||
  match s with
  | String _ rest => includes rest needle
  | EmptyString => false
  end.

Definition isYouTubeVideoPage (location : Location) : bool :=
  String.eqb (hostname location) "www.youtube.com" &&
  String.eqb (pathname location) "/watch".

Definition isYouTubeIndexPage (location : Location) : bool :=
  String.eqb (hostname location) "www.youtube.com" &&
  (String.eqb (pathname location) "/" ||
   String.eqb (pathname location) "/feed/subscriptions" ||
   String.eqb (pathname location) "/feed/trending" ||
   startsWith (pathname location) "/channel/" ||
   startsWith (pathname location) "/c/" ||
   startsWith (pathname location) "/user/" ||
   startsWith (pathname location) "/playlist?list=" ||
   (startsWith (pathname location) "/watch?v=" &&
    includes (search location) "list=")).

Definition isYouTubePlaylistPage (location : Location) : bool :=
  (String.eqb (hostname location) "www.youtube.com" ||
   String.eqb (hostname location) "youtube.com") &&
  (String.eqb (pathname location) "/playlist" ||
   startsWith (pathname location) "/playlist?" ||
   (startsWith (pathname location) "/watch" &&
    includes (search location) "list=")).

(** ** [extractVideoInfoFromCard] *)

(** The fields of [YouTubeVideoInfo] that [extractVideoInfoFromCard] fills. *)
Record VideoInfo := {
  info_id : string;
  info_title : string;
  info_url : string;
  info_channelName : option string;
  info_channelUrl : option string;
  info_thumbnailUrl : string;
}.

(** What a card answers to the four queries of [extractVideoInfoFromCard];
    [None] is [undefined]: no such element, or no text in it. *)
Record Card := {
  (** [card.querySelector('a[href*=/watch?v=]')?.href] *)
  card_link_href : option string;
  (** [titleElement?.textContent?.trim()] *)
  card_title : option string;
  (** [channelElement?.textContent?.trim()] *)
  card_channel : option string;
  (** [channelLink?.href] *)
  card_channel_href : option string;
}.

(** The longest run of characters other than [&] at the head: [[^&]*]. *)
Fixpoint upto_ampersand (s : list ascii) : list ascii :=
  match s with
  | c :: rest =>
      if Ascii.eqb c "&"%char then [] else c :: upto_ampersand rest
  | [] => []
  end.

(** A match of [/[?&]v=([^&]+)/] that starts at the head: its group 1. *)
Definition v_group_here (s : list ascii) : option (list ascii) :=
  match s with
  | c :: c1 :: c2 :: rest =>
      if (Ascii.eqb c "?"%char || Ascii.eqb c "&"%char)
         && Ascii.eqb c1 "v"%char && Ascii.eqb c2 "="%char
      then
        match upto_ampersand rest with
        | [] => None
        | run => Some run
        end
      else None
  | _ => None
  end.

(** [url.match(/[?&]v=([^&]+)/)?.[1]]: group 1 of the leftmost match. *)
Fixpoint v_group (s : list ascii) : option (list ascii) :=
  match s with
  | [] => None
  | c :: rest =>
      match v_group_here s with
      | Some run => Some run
      | None => v_group rest
      end
  end.

Definition extractVideoInfoFromCard (card : Card) : option VideoInfo :=
  match card_link_href card with
  | None => None
  | Some url =>
      match v_group (list_ascii_of_string url) with
      | None => None
      | Some run =>
          let videoId := string_of_list_ascii run in
          Some
            {| info_id := videoId;
               info_title :=
                 match card_title card with
                 | Some text => if nonempty text then text else "Unknown Title"
                 | None => "Unknown Title"
                 end;
               info_url := url;
               info_channelName := card_channel card;
               info_channelUrl := card_channel_href card;
               info_thumbnailUrl :=
                 "https://img.youtube.com/vi/" ++ videoId ++ "/mqdefault.jpg" |}
      end
  end.

(** ** Buttons *)

(** A save button as [updateButtonState] and [checkSavedStatus] see it. *)
Record Button := {
  (** [button.getAttribute('data-video-id')] *)
  btn_video_id : option string;
  (** the text of [button.querySelector('div')]; [None]: no [div] inside *)
  btn_label : option string;
  (** [button.classList], in order *)
  btn_classes : list string;
  btn_href : string;
  btn_title : string;
  (** [button.onclick]: the video a click saves, [None] for [null] *)
  btn_onclick : option VideoInfo;
  (** the card of [button.closest(...)], when the button sits in one *)
  btn_card : option Card;
}.

(** The page around the buttons: its location, and what
    [playService.extractYouTubeVideoInfo()] finds on it. *)
Record Page := {
  page_location : Location;
  page_video : option VideoInfo;
}.

(** [classList.remove(c)] *)
Definition class_remove (c : string) (classes : list string) : list string :=
  List.filter (fun c' => negb (String.eqb c' c)) classes.

(** [classList.add(c)] *)
Definition class_add (c : string) (classes : list string) : list string :=
  if existsb (String.eqb c) classes then classes else (classes ++ [c])%list.

Definition extractVideoInfoFromButton (page : Page) (button : Button)
  : option VideoInfo :=
  match btn_video_id button with
  | None => None
  | Some videoId =>
      if negb (nonempty videoId) then None
      else
        match btn_card button with
        | Some videoCard => extractVideoInfoFromCard videoCard
        | None =>
            if isYouTubeVideoPage (page_location page) then page_video page
            else None
        end
  end.

Definition label_save : string := "➕ Save to Play".
Definition label_saved : string := "✓ Saved To Play".
Definition label_watched : string := "✓ Watched In Play".

(** [updateButtonState(button, isSaved, isNew, videoId)]; [videoId] is
    [None] when the argument is left out, and then falsy like the empty
    string. *)
Definition updateButtonState (page : Page) (button : Button)
    (isSaved isNew : bool) (videoId : option string) : Button :=
  match btn_label button with
  | None => button
  | Some _ =>
      if isSaved && nonempty (default "" videoId) then
        {| btn_video_id := btn_video_id button;
           btn_label := Some (if isNew then label_saved else label_watched);
           btn_classes :=
             class_add (if isNew then "saved" else "watched")
               (class_remove "watched" (btn_classes button));
           btn_href := "play://open?id=" ++ default "" videoId;
           btn_title := "Open in Play app";
           btn_onclick := None;
           btn_card := btn_card button |}
      else
        {| btn_video_id := btn_video_id button;
           btn_label := Some label_save;
           btn_classes :=
             class_remove "watched" (class_remove "saved" (btn_classes button));
           btn_href := "#";
           btn_title := "Save video to Play";
           btn_onclick :=
             match extractVideoInfoFromButton page button with
             | Some videoInfo => Some videoInfo
             | None => btn_onclick button
             end;
           btn_card := btn_card button |}
  end.

(** [video.id === buttonVideoId] *)
Definition same_id (id : value) (buttonVideoId : string) : bool :=
  match id with
  | VStr s => String.eqb s buttonVideoId
  | _ => false
  end.

(** [video.is_new === 'Yes'] *)
Definition is_Yes (is_new : value) : bool :=
  match is_new with
  | VStr s => String.eqb s "Yes"
  | _ => false
  end.

(** The body of [buttons.forEach] in [checkSavedStatus]. *)
Definition mark_if_saved (page : Page) (video : value) (button : Button)
  : Button :=
  match btn_video_id button with
  | Some buttonVideoId =>
      if nonempty buttonVideoId && same_id (prop video "id") buttonVideoId
      then
        updateButtonState page button true (is_Yes (prop video "is_new"))
          (Some buttonVideoId)
      else button
  | None => button
  end.

(** [checkSavedStatus(url)] on the buttons of the page.  [sendMessage] is
    [chrome.runtime.sendMessage]: the response to a request, or the
    rejection.  The result is the buttons after the call. *)
Definition checkSavedStatus (page : Page) (sendMessage : value -> exn + value)
    (url : string) (buttons : list Button) : list Button :=
  match
    sendMessage (VObj [("action", VStr "getVideoByUrl"); ("url", VStr url)])
  with
  | inl error => buttons
  | inr response =>
      match get_prop response "success" with
      | inl error => buttons
      | inr success =>
          if truthy success && truthy (prop response "video") then
            map (mark_if_saved page (prop response "video")) buttons
          else buttons
      end
  end.

(** ** More notions used in the statements *)

(** The actions the background listener knows. *)
Definition background_actions : list string :=
  ["saveVideo"; "syncVideos"; "getVideoInfo"; "getVideoByUrl"; "getAllVideos"].

(** The browser [b] with another answer of [navigator.clipboard.readText]. *)
Definition with_clipboard (b : Browser) (answer : exn + string) : Browser := {|
  runtime_id := runtime_id b;
  tabs_query := tabs_query b;
  scripting_executeScript := scripting_executeScript b;
  tabs_sendMessage := tabs_sendMessage b;
  clipboard_readText := answer;
  clipboard_available := clipboard_available b;
  tabs_create := tabs_create b;
  encodeURIComponent := encodeURIComponent b;
  toISOString := toISOString b;
|}.

(** The browser [b] with another content script behind
    [chrome.tabs.sendMessage]. *)
Definition with_relay (b : Browser)
    (relay : nat -> exn + option ClipboardReply) : Browser := {|
  runtime_id := runtime_id b;
  tabs_query := tabs_query b;
  scripting_executeScript := scripting_executeScript b;
  tabs_sendMessage := relay;
  clipboard_readText := clipboard_readText b;
  clipboard_available := clipboard_available b;
  tabs_create := tabs_create b;
  encodeURIComponent := encodeURIComponent b;
  toISOString := toISOString b;
|}.

(** The sender of a message that comes from the extension itself. *)
Definition own_sender (b : Browser) : MessageSender :=
  {| sender_id := Some (runtime_id b) |}.

(** A browser whose active tab is tab 7; the reader injected into it finds
    [page_text], the clipboard of the background holds [own_text]. *)
Definition browser_with_tab (page_text own_text : string) : Browser := {|
  runtime_id := "save-to-play";
  tabs_query := inr [ {| tab_id := Some 7 |} ];
  scripting_executeScript :=
    fun _ =>
      inr [ Some {| reply_success := true; reply_text := Some page_text |} ];
  tabs_sendMessage :=
    fun _ => inl (ErrorObject "Error" "Receiving end does not exist");
  clipboard_readText := inr own_text;
  clipboard_available := true;
  tabs_create := fun _ => None;
  encodeURIComponent := fun v =>
    match v with
    | VStr s => inr (percent_encode s)
    | _ => inr "undefined"
    end;
  toISOString := clock;
|}.



(** Every record is stored under its own [id]. *)
Definition keyed (store : gmap string value) : Prop :=
  forall k record, store !! k = Some record -> prop record "id" = VStr k.

(** What the background reads off the response of the content script:
    [response && response.success] and [response.text]. *)
Definition reply_of (response : value) : option ClipboardReply :=
  if truthy response then
    Some
      {| reply_success := truthy (prop response "success");
         reply_text :=
           match prop response "text" with
           | VStr text => Some text
           | _ => None
           end |}
  else None.

(** [chrome.tabs.sendMessage(tab.id, {action: 'readClipboard'})] when the
    content script in the tab runs in browser [page]: the response is what
    its listener passes to [sendResponse], [undefined] when it passes
    nothing. *)
Definition relay_through `{DbService} (page : Browser) (w : world)
  : nat -> exn + option ClipboardReply :=
  fun _ =>
    match
      content_onMessage page (VObj [("action", VStr "readClipboard")])
        (own_sender page) w
    with
    | (inr _, w') =>
        inr (reply_of (default VUndefined
                         (last (drop (length (w_sent w)) (w_sent w')))))
    | (inl e, _) => inl e
    end.

(** [chrome.runtime.sendMessage(request)] of the content script when the
    background worker of browser [b] is in world [w]: the response is what
    its listener passes to [sendResponse], [undefined] when it passes
    nothing. *)
Definition runtime_sendMessage `{DbService} (b : Browser) (w : world)
    (request : value) : exn + value :=
  match background_onMessage b request (own_sender b) w with
  | (inr _, w') =>
      inr (default VUndefined (last (drop (length (w_sent w)) (w_sent w'))))
  | (inl e, _) => inl e
  end.

(** ** Data of the concrete runs of the further properties *)

(** A browser whose active tab is tab 7 and refuses the injection; the
    content script of that tab is the one of [relay]. *)
Definition browser_locked_tab
    (relay : nat -> exn + option ClipboardReply) : Browser := {|
  runtime_id := "save-to-play";
  tabs_query := inr [ {| tab_id := Some 7 |} ];
  scripting_executeScript :=
    fun _ => inl (ErrorObject "Error" "Cannot access contents of the page");
  tabs_sendMessage := relay;
  clipboard_readText := inl (ErrorObject "NotAllowedError" "Read permission denied");
  clipboard_available := true;
  tabs_create := fun _ => None;
  encodeURIComponent := fun v =>
    match v with
    | VStr s => inr (percent_encode s)
    | _ => inr "undefined"
    end;
  toISOString := clock;
|}.

Definition disk_full : exn := ErrorObject "QuotaExceededError" "disk full".


(** A video watched from a playlist, and a channel page. *)
Definition location_watch_in_list : Location := {|
  hostname := "www.youtube.com";
  pathname := "/watch";
  search := "?v=abc&list=PL1";
|}.

Definition location_channel : Location := {|
  hostname := "www.youtube.com";
  pathname := "/channel/UC1";
  search := "";
|}.

(** A card of the video [abc], and what is extracted from it. *)
Definition card_abc : Card := {|
  card_link_href := Some "https://www.youtube.com/watch?v=abc&t=10s";
  card_title := Some "A video";
  card_channel := Some "A channel";
  card_channel_href := Some "https://www.youtube.com/channel/UC1";
|}.

Definition info_abc : VideoInfo := {|
  info_id := "abc";
  info_title := "A video";
  info_url := "https://www.youtube.com/watch?v=abc&t=10s";
  info_channelName := Some "A channel";
  info_channelUrl := Some "https://www.youtube.com/channel/UC1";
  info_thumbnailUrl := "https://img.youtube.com/vi/abc/mqdefault.jpg";
|}.

(** The save button of that card, marked as saved before, on the channel
    page. *)
Definition button_abc : Button := {|
  btn_video_id := Some "abc";
  btn_label := Some label_saved;
  btn_classes := ["save-to-play-btn"; "saved"];
  btn_href := "play://open?id=abc";
  btn_title := "Open in Play app";
  btn_onclick := None;
  btn_card := Some card_abc;
|}.

Definition page_channel : Page := {|
  page_location := location_channel;
  page_video := None;
|}.

(** * The reader on sample texts *)

Example parse_not_json : JSON_parse "not json" = None.
Proof. vm_compute. reflexivity. Qed.

Example parse_array :
  JSON_parse (dq "[{'id':'a','n':-1.5e2}, null , true]") =
  Some (VArr [VObj [("id", VStr "a"); ("n", VNum (-15) 1)]; VNull; VBool true]).
Proof. vm_compute. reflexivity. Qed.

Example parse_object :
  JSON_parse (dq " { 'a' : { 'b' : [ 1 , [ ] , 'x\u0041\n' ] } , 'c' : 0.25 , 'a' : false } ") =
  Some (VObj [ ("a", VBool false); ("c", VNum 25 (-2)) ]).
Proof. vm_compute. reflexivity. Qed.

Example parse_escapes :
  JSON_parse (dq "'x\u0041\n'") =
  Some (VStr (String "x" (String "A" (String "010" EmptyString)))).
Proof. vm_compute. reflexivity. Qed.

Example parse_surrogate_pair :
  JSON_parse (dq "['\ud83d\ude00', '\ud83d', 'a\ude00b', '\u00e9\u20ac']") =
  Some (VArr [VStr "😀"; VStr (String "237" (String "160" (String "189" "")));
              VStr (String "a" (String "237" (String "184" (String "128" "b"))));
              VStr "é€"]).
Proof. vm_compute. reflexivity. Qed.

Example code_units :
  utf16_length "a😀é€" = 5%nat /\
  JSON.join_surrogates
    (list_ascii_of_string
       (String.concat "" (utf16_units (list_ascii_of_string "😀")))) =
    list_ascii_of_string "😀" /\
  spread (VStr "a😀") =
    [ ("0", VStr "a");
      ("1", VStr (String "237" (String "160" (String "189" ""))));
      ("2", VStr (String "237" (String "184" (String "128" "")))) ].
Proof. repeat split; vm_compute; reflexivity. Qed.

Example parse_rejects :
  forallb (fun text => bool_decide (JSON_parse (dq text) = None))
    [ ""; " "; "[1,]"; "{'a':1,}"; "{a:1}"; "01"; "1."; ".5"; "-"; "+1";
      "tru"; "[1 2]"; "1 x"; "'abc"; "[1"; "{'a'}"; "undefined" ] = true.
Proof. vm_compute. reflexivity. Qed.

(** * Properties that hold for every catalog service *)
Section BackgroundFacts.

Context `{DbService}.


Lemma nonempty_false text : nonempty text = false -> text = "".
Proof.
  unfold nonempty. intros E. apply negb_false_iff in E.
  now apply String.eqb_eq in E.
Qed.

(** C1 (as amended).  A request whose sender is not the extension itself
    is never serviced: no handler runs and nothing changes.  The content
    script answers it with the Unauthorized sender failure; the background
    listener sends no response at all. *)
Theorem foreign_sender_not_serviced b request sender w :
  foreign b sender = true ->
  background_onMessage b request sender w = (inr false, w) /\
  content_onMessage b request sender w =
    (inr false, responded w (response_failure "Unauthorized sender")).
Proof.
  intros Hf. unfold background_onMessage, content_onMessage.
  rewrite Hf. split; reflexivity.
Qed.

(** [handleSyncVideos] as a case analysis on the acquired text. *)
Lemma handleSyncVideos_cases b w :
  handleSyncVideos b w =
    let '(text, source) := acquire b in
    if negb (nonempty text) then
      (inr tt, responded w (response_no_clipboard source))
    else
      match JSON_parse text with
      | None =>
          (inr tt,
           responded w
             (response_manual_paste
                "Invalid JSON data in clipboard. Please check your shortcut output."))
      | Some parsed =>
          if (length (normalize parsed) =? 0)%nat then
            (inr tt,
             responded w (response_manual_paste "No video data found in clipboard."))
          else
            match process b (normalize parsed) 0 0 w with
            | (inr counters, w') =>
                (inr tt,
                 responded w' (response_synced (fst counters) (snd counters)))
            | (inl error, w') =>
                (inr tt,
                 responded w' (response_manual_paste (error_message error)))
            end
      end.
Proof.
  unfold handleSyncVideos, try_catch.
  destruct (acquire b) as [text source].
  destruct (negb (nonempty text)); [reflexivity|].
  destruct (JSON_parse text) as [parsed|]; [|reflexivity].
  destruct (length (normalize parsed) =? 0)%nat; [reflexivity|].
  unfold bind.
  destruct (process b (normalize parsed) 0 0 w) as [[error|counters] w'];
    reflexivity.
Qed.

(** *** Steps that send nothing *)

Lemma silent_ret {A} (a : A) : silent (ret a).
Proof. intros w. reflexivity. Qed.

Lemma silent_lift {A} (r : exn + A) : silent (lift r).
Proof. intros w. reflexivity. Qed.

Lemma silent_now b : silent (now b).
Proof. intros w. reflexivity. Qed.

Lemma silent_bind {A B} (m : M A) (k : A -> M B) :
  silent m -> (forall a, silent (k a)) -> silent (bind m k).
Proof.
  intros Hm Hk w. unfold bind. specialize (Hm w).
  destruct (m w) as [[e|a] w1]; cbn in *; [exact Hm|].
  rewrite Hk. exact Hm.
Qed.

Lemma silent_try_catch {A} (m : M A) (handler : exn -> M A) :
  silent m -> (forall e, silent (handler e)) -> silent (try_catch m handler).
Proof.
  intros Hm Hh w. unfold try_catch. specialize (Hm w).
  destruct (m w) as [[e|a] w1]; cbn in *; [|exact Hm].
  rewrite Hh. exact Hm.
Qed.

Lemma next_fault_sent w : w_sent (snd (next_fault w)) = w_sent w.
Proof. unfold next_fault. destruct (w_faults w); reflexivity. Qed.

Lemma silent_db_read {A} (read : db -> exn + A) : silent (db_read read).
Proof.
  intros w. unfold db_read. pose proof (next_fault_sent w) as Hn.
  destruct (next_fault w) as [[e|] w1]; exact Hn.
Qed.

Lemma silent_db_write (write : db -> exn + db) : silent (db_write write).
Proof.
  intros w. unfold db_write. pose proof (next_fault_sent w) as Hn.
  destruct (next_fault w) as [[e|] w1]; [exact Hn|].
  destruct (write (w_db w1)); exact Hn.
Qed.

Create HintDb silent.
Hint Resolve silent_ret silent_lift silent_now silent_bind silent_try_catch
  silent_db_read silent_db_write : silent.

Lemma process_silent b playVideos :
  forall videosAdded videosUpdated,
    silent (process b playVideos videosAdded videosUpdated).
Proof.
  induction playVideos as [|playVideo rest IH]; intros a u; cbn [process].
  - auto with silent.
  - apply silent_bind; [|intros c; apply IH].
    unfold reconcile. apply silent_try_catch.
    + unfold convert. apply silent_bind; [auto 6 with silent|].
      intros video. apply silent_bind; [auto with silent|].
      intros existing. destruct (truthy existing); auto with silent.
    + intros e. auto with silent.
Qed.

(** C5.  When the acquired payload text is not valid JSON, the sync
    handler answers once, with [success: false] and
    [needsManualPaste: true], and leaves the world (the record store
    included) as it was: nothing of the text is used. *)
Theorem malformed_payload_rejected b w text source :
  acquire b = (text, source) ->
  JSON_parse text = None ->
  exists response,
    handleSyncVideos b w = (inr tt, responded w response) /\
    prop response "success" = VBool false /\
    prop response "needsManualPaste" = VBool true.
Proof.
  intros Ha Hp. rewrite handleSyncVideos_cases, Ha, Hp.
  destruct (negb (nonempty text)); eexists; (split; [reflexivity|]);
    split; reflexivity.
Qed.


(** Every run of [handleSyncVideos] answers once, with one of its three
    kinds of response. *)
Lemma handleSyncVideos_answers b w :
  exists w' response,
    handleSyncVideos b w = (inr tt, responded w' response) /\
    w_sent w' = w_sent w /\
    ((exists videosAdded videosUpdated,
        response = response_synced videosAdded videosUpdated) \/
     (exists dataSource, response = response_no_clipboard dataSource) \/
     (exists error, response = response_manual_paste error)).
Proof.
  rewrite handleSyncVideos_cases.
  destruct (acquire b) as [text source].
  destruct (negb (nonempty text)).
  { exists w. eexists. repeat split. right. left. eauto. }
  destruct (JSON_parse text) as [parsed|].
  2: { exists w. eexists. repeat split. right. right. eauto. }
  destruct (length (normalize parsed) =? 0)%nat.
  { exists w. eexists. repeat split. right. right. eauto. }
  pose proof (process_silent b (normalize parsed) 0 0 w) as Hs.
  destruct (process b (normalize parsed) 0 0 w) as [[error|counters] w'];
    exists w'; eexists; (split; [reflexivity|]); (split; [exact Hs|]).
  - right. right. eauto.
  - left. eauto.
Qed.

(** C10.  The sync handler always answers exactly once, and an answer that
    is not a success carries [needsManualPaste: true], whichever way the
    run failed: no text acquired, malformed text, no descriptors, or an
    error thrown past the loop into the outer catch. *)
Theorem sync_failure_needs_manual_paste b w :
  exists w' response,
    handleSyncVideos b w = (inr tt, responded w' response) /\
    w_sent w' = w_sent w /\
    (prop response "success" = VBool true \/
     prop response "success" = VBool false /\
     prop response "needsManualPaste" = VBool true).
Proof.
  destruct (handleSyncVideos_answers b w)
    as (w' & response & Hrun & Hsent & Hkind).
  exists w', response. split; [exact Hrun|]. split; [exact Hsent|].
  destruct Hkind as [(a & u & ->)|[(source & ->)|(error & ->)]].
  - left. reflexivity.
  - right. split; reflexivity.
  - right. split; reflexivity.
Qed.

(** C9.  [getVideoInfo] and [getVideoByUrl] are served alike: on every url
    and every world both handlers give the same result, which is decided
    by the storage layer and by [dbService.getVideoByUrl] alone (no lookup
    by id): the record found goes into [{success: true, video}], a
    rejection into [{success: false, error}]. *)
Theorem get_handlers_agree url w :
  handleGetVideoInfo url w = handleGetVideoByUrl url w /\
  handleGetVideoByUrl url w =
    (inr tt,
     responded (snd (next_fault w))
       match fst (next_fault w) with
       | Some error => response_failure (error_message error)
       | None =>
           match getVideoByUrl url (w_db (snd (next_fault w))) with
           | inr video => VObj [("success", VBool true); ("video", video)]
           | inl error => response_failure (error_message error)
           end
       end).
Proof.
  split; [reflexivity|].
  unfold handleGetVideoByUrl, try_catch, bind, db_read.
  destruct (next_fault w) as [[error|] w1]; cbn; [reflexivity|].
  destruct (getVideoByUrl url (w_db w1)); reflexivity.
Qed.

Lemma get_prop_defined v k : nullish v = false -> get_prop v k = inr (prop v k).
Proof. destruct v; cbn; intros E; try discriminate; reflexivity. Qed.

Lemma next_fault_frame w :
  w_db (snd (next_fault w)) = w_db w /\
  w_clock (snd (next_fault w)) = w_clock w /\
  w_tabs (snd (next_fault w)) = w_tabs w /\
  w_sent (snd (next_fault w)) = w_sent w.
Proof. unfold next_fault. destruct (w_faults w); repeat split. Qed.

(** A write either is rejected, by the storage layer or by the service,
    and then changes nothing in the database, or is accepted by the service
    and replaces the database. *)
Lemma db_write_cases write w :
  (exists e w',
     db_write write w = (inl e, w') /\
     w_db w' = w_db w /\ w_sent w' = w_sent w) \/
  (exists d w',
     db_write write w = (inr tt, w') /\
     write (w_db w) = inr d /\
     w_db w' = d /\ w_sent w' = w_sent w).
Proof.
  pose proof (next_fault_frame w) as (Fdb & _ & _ & Fsent).
  unfold db_write. destruct (next_fault w) as [[e|] w1]; cbn in *.
  - left. eauto.
  - rewrite Fdb. destruct (write (w_db w)) as [e|d].
    + left. eauto.
    + right. exists d. eexists. repeat split. exact Fsent.
Qed.

Ltac answers_failure :=
  eexists; eexists; split; [reflexivity|];
  split; [first [reflexivity|eassumption]|];
  right; eexists; split; [reflexivity|first [reflexivity|eassumption]].

(** Every run of [handleSaveVideo] answers once.  Behind a success there is
    one accepted [addVideo], of the payload or of the stamped payload;
    behind a failure the database is untouched. *)
Lemma handleSaveVideo_outcome b videoInfo w :
  exists w' response,
    handleSaveVideo b videoInfo w = (inr tt, responded w' response) /\
    w_sent w' = w_sent w /\
    (prop response "success" = VBool true /\
     (exists record,
        addVideo record (w_db w) = inr (w_db w') /\
        (record = videoInfo \/
         nullish videoInfo = false /\
         exists savedAt lastSyncedAt,
           record = stamped videoInfo savedAt lastSyncedAt)) \/
     exists error, response = response_failure error /\ w_db w' = w_db w).
Proof.
  unfold handleSaveVideo, try_catch.
  unfold bind at 1 2, lift at 1.
  destruct (get_prop videoInfo "url") as [e|url] eqn:Eurl;
    [answers_failure|].
  assert (nullish videoInfo = false) as Hn
    by (destruct videoInfo; try reflexivity; discriminate).
  assert (exists r : (exn + bool),
             (if truthy url
              then
                bind (lift (get_prop videoInfo "id"))
                  (fun id => ret (truthy id))
              else ret false) w = (r, w)) as [r ->].
  { destruct (truthy url); [|eexists; reflexivity].
    unfold bind, lift.
    destruct (get_prop videoInfo "id"); eexists; reflexivity. }
  destruct r as [e|[|]]; [answers_failure| |].
  - unfold bind.
    destruct (db_write_cases (addVideo videoInfo) w)
      as [(e & w1 & -> & Hdb & Hsent)|(d & w1 & -> & Hadd & Hdb & Hsent)];
      [answers_failure|].
    eexists. eexists. split; [reflexivity|]. split; [exact Hsent|].
    left. split; [reflexivity|]. exists videoInfo. rewrite Hdb.
    split; [exact Hadd|now left].
  - unfold bind at 1, lift.
    destruct (encodeURIComponent b url) as [e|encoded]; [answers_failure|].
    unfold bind at 1, chrome_tabs_create.
    destruct (tabs_create b ("play://add?url=" ++ encoded)) as [e|];
      [answers_failure|].
    unfold bind, now.
    match goal with
    | |- context [db_write ?write ?w0] =>
        destruct (db_write_cases write w0)
          as [(e & w1 & -> & Hdb & Hsent)|(d & w1 & -> & Hadd & Hdb & Hsent)]
    end; cbn in Hdb, Hsent; [answers_failure|].
    eexists. eexists. split; [reflexivity|]. split; [exact Hsent|].
    left. split; [reflexivity|]. eexists. rewrite Hdb.
    split; [exact Hadd|]. right. split; [exact Hn|]. eauto.
Qed.

(** The run of [handleSaveVideo] on a payload without [url] or without
    [id]. *)
Lemma handoff_run b videoInfo w :
  nullish videoInfo = false ->
  carries_both videoInfo = false ->
  handleSaveVideo b videoInfo w =
    try_catch
      (bind (lift (encodeURIComponent b (prop videoInfo "url")))
         (fun encoded =>
            bind (chrome_tabs_create b ("play://add?url=" ++ encoded))
              (fun _ =>
                 bind (now b) (fun savedAt =>
                 bind (now b) (fun lastSyncedAt =>
                 bind (db_write
                         (addVideo
                            (stamped videoInfo savedAt lastSyncedAt)))
                   (fun _ =>
                      sendResponse
                        (response_message "Video saved to Play")))))))
      (fun error => sendResponse (response_failure (error_message error)))
      w.
Proof.
  intros Hn Hc.
  unfold handleSaveVideo, try_catch, bind at 1 2, lift at 1.
  rewrite (get_prop_defined _ "url" Hn).
  unfold carries_both in Hc.
  destruct (truthy (prop videoInfo "url")).
  - unfold bind at 1, lift at 1.
    rewrite (get_prop_defined _ "id" Hn). cbn in Hc.
    unfold ret at 1. rewrite Hc. reflexivity.
  - reflexivity.
Qed.

(** C6 (as amended).  [handleSaveVideo] goes by the shape of its payload.
    With both [url] and [id] (truthy) the payload itself is handed to
    [addVideo] and nothing else happens: once stored, the answer is the
    saved-to-database message.  With either one missing, the companion
    application is opened on the payload's url, the payload is stamped
    with two fresh clock readings as [savedAt] and [lastSyncedAt], and the
    stamped record is handed to [addVideo]: once stored, the answer is the
    saved-to-Play message.  Any run answers exactly once; an answer that is
    not a success is [{success: false, error}] and the database is as it
    was before.  Whatever is thrown is answered with
    [{success: false, error}], [error] being the message of what was
    thrown: by the storage layer or by [addVideo] on either path, then
    without a write (on the second path the companion application has been
    opened by then); by [encodeURIComponent] or by [chrome.tabs.create],
    then with nothing else done; by the read of [url] from a payload that
    is [null] or [undefined]. *)
Theorem handleSaveVideo_by_shape b videoInfo w :
  (nullish videoInfo = false ->
   carries_both videoInfo = true ->
   fst (next_fault w) = None ->
   forall d,
     addVideo videoInfo (w_db w) = inr d ->
     handleSaveVideo b videoInfo w =
       (inr tt,
        World d (w_faults (snd (next_fault w))) (w_clock w) (w_tabs w)
          (w_sent w ++ [response_message "Video saved to database"]))) /\
  (nullish videoInfo = false ->
   carries_both videoInfo = false ->
   fst (next_fault w) = None ->
   forall encoded d,
     encodeURIComponent b (prop videoInfo "url") = inr encoded ->
     tabs_create b ("play://add?url=" ++ encoded) = None ->
     addVideo
       (stamped videoInfo (toISOString b (w_clock w))
          (toISOString b (S (w_clock w)))) (w_db w) = inr d ->
     handleSaveVideo b videoInfo w =
       (inr tt,
        World d (w_faults (snd (next_fault w))) (S (S (w_clock w)))
          (w_tabs w ++ ["play://add?url=" ++ encoded])
          (w_sent w ++ [response_message "Video saved to Play"]))) /\
  (exists w' response,
     handleSaveVideo b videoInfo w = (inr tt, responded w' response) /\
     w_sent w' = w_sent w /\
     (prop response "success" = VBool true \/
      exists error,
        response = response_failure error /\ w_db w' = w_db w)) /\
  (nullish videoInfo = false ->
   carries_both videoInfo = true ->
   forall e,
     fst (next_fault w) = Some e \/
     fst (next_fault w) = None /\ addVideo videoInfo (w_db w) = inl e ->
     handleSaveVideo b videoInfo w =
       (inr tt,
        responded (snd (next_fault w)) (response_failure (error_message e)))) /\
  (nullish videoInfo = false ->
   carries_both videoInfo = false ->
   forall e,
     encodeURIComponent b (prop videoInfo "url") = inl e \/
     (exists encoded,
        encodeURIComponent b (prop videoInfo "url") = inr encoded /\
        tabs_create b ("play://add?url=" ++ encoded) = Some e) ->
     handleSaveVideo b videoInfo w =
       (inr tt, responded w (response_failure (error_message e)))) /\
  (nullish videoInfo = false ->
   carries_both videoInfo = false ->
   forall encoded e,
     encodeURIComponent b (prop videoInfo "url") = inr encoded ->
     tabs_create b ("play://add?url=" ++ encoded) = None ->
     fst (next_fault w) = Some e \/
     fst (next_fault w) = None /\
     addVideo
       (stamped videoInfo (toISOString b (w_clock w))
          (toISOString b (S (w_clock w)))) (w_db w) = inl e ->
     handleSaveVideo b videoInfo w =
       (inr tt,
        World (w_db w) (w_faults (snd (next_fault w))) (S (S (w_clock w)))
          (w_tabs w ++ ["play://add?url=" ++ encoded])
          (w_sent w ++ [response_failure (error_message e)]))) /\
  (nullish videoInfo = true ->
   exists e,
     get_prop videoInfo "url" = inl e /\
     handleSaveVideo b videoInfo w =
       (inr tt, responded w (response_failure (error_message e)))).
Proof.
  pose proof (next_fault_frame w) as (Fdb & Fclock & Ftabs & Fsent).
  split; [|split; [|split; [|split; [|split; [|split]]]]].
  - intros Hn Hc Hf d Ha.
    apply andb_true_iff in Hc as [Hurl Hid].
    unfold handleSaveVideo, try_catch, bind, lift, db_write.
    rewrite !(get_prop_defined _ _ Hn), Hurl. cbn [ret]. rewrite Hid.
    destruct (next_fault w) as [fault w1]. cbn in *. subst fault.
    rewrite Fdb, Ha. unfold sendResponse, responded. cbn.
    now rewrite Fclock, Ftabs, Fsent.
  - intros Hn Hc Hf encoded d He Ht Ha.
    assert (handleSaveVideo b videoInfo w =
            try_catch
              (bind (lift (encodeURIComponent b (prop videoInfo "url")))
                 (fun encoded =>
                    bind (chrome_tabs_create b ("play://add?url=" ++ encoded))
                      (fun _ =>
                         bind (now b) (fun savedAt =>
                         bind (now b) (fun lastSyncedAt =>
                         bind (db_write
                                 (addVideo
                                    (stamped videoInfo savedAt lastSyncedAt)))
                           (fun _ =>
                              sendResponse
                                (response_message "Video saved to Play")))))))
              (fun error => sendResponse (response_failure (error_message error)))
              w) as ->.
    { unfold handleSaveVideo, try_catch, bind at 1 2, lift at 1.
      rewrite (get_prop_defined _ "url" Hn).
      unfold carries_both in Hc.
      destruct (truthy (prop videoInfo "url")).
      - unfold bind at 1, lift at 1.
        rewrite (get_prop_defined _ "id" Hn). cbn in Hc.
        unfold ret at 1. rewrite Hc. reflexivity.
      - reflexivity. }
    unfold try_catch, bind, lift. rewrite He.
    unfold chrome_tabs_create. rewrite Ht.
    unfold now, db_write, next_fault in *. cbn.
    destruct (w_faults w) as [|fault rest] eqn:Ew; cbn in *.
    + rewrite Ha. unfold sendResponse, responded. cbn. now rewrite Ew.
    + subst fault. rewrite Ha. reflexivity.
  - destruct (handleSaveVideo_outcome b videoInfo w)
      as (w' & response & Hrun & Hsent & [[Hok _]|Hfail]).
    + exists w', response. repeat split; try assumption. now left.
    + exists w', response. repeat split; try assumption. now right.
  - intros Hn Hc e He.
    apply andb_true_iff in Hc as [Hurl Hid].
    unfold handleSaveVideo, try_catch, bind, lift, db_write.
    rewrite !(get_prop_defined _ _ Hn), Hurl. cbn [ret]. rewrite Hid.
    destruct (next_fault w) as [fault w1]. cbn in *.
    destruct He as [->|[-> Ha]]; [reflexivity|].
    rewrite Fdb, Ha. reflexivity.
  - intros Hn Hc e He. rewrite (handoff_run b videoInfo w Hn Hc).
    unfold try_catch, bind, lift.
    destruct He as [->|(encoded & -> & Ht)]; [reflexivity|].
    unfold chrome_tabs_create. rewrite Ht. reflexivity.
  - intros Hn Hc encoded e He Ht Hfail.
    rewrite (handoff_run b videoInfo w Hn Hc).
    unfold try_catch, bind, lift. rewrite He.
    unfold chrome_tabs_create. rewrite Ht.
    unfold now, db_write, next_fault in *. cbn.
    destruct (w_faults w) as [|fault rest] eqn:Ew; cbn in *.
    + destruct Hfail as [Hf|[_ Ha]]; [discriminate|].
      rewrite Ha. unfold sendResponse, responded. cbn. now rewrite Ew.
    + destruct Hfail as [->|[-> Ha]]; [reflexivity|].
      rewrite Ha. reflexivity.
  - intros Hn. unfold handleSaveVideo, try_catch, bind, lift.
    destruct videoInfo; try discriminate; eexists; split; reflexivity.
Qed.

(** The loop stops at a [null] entry: the body throws on it, and so does
    the catch clause, which reads [playVideo.id] for its log line. *)
Lemma process_null b rest videosAdded videosUpdated w :
  process b (VNull :: rest) videosAdded videosUpdated w =
    (inl (TypeError_null "id"), w).
Proof. reflexivity. Qed.

(** A request of the extension itself is answered: whatever the action, the
    background listener ends with exactly one more response sent (given a
    request that is an object, so that its [action] can be read). *)
Lemma background_answers_own_sender b request sender w :
  foreign b sender = false ->
  nullish request = false ->
  exists keep w' response,
    background_onMessage b request sender w =
      (inr keep, responded w' response) /\
    w_sent w' = w_sent w.
Proof.
  intros Hown Hreq. unfold background_onMessage. rewrite Hown.
  unfold bind at 1, lift. rewrite (get_prop_defined _ _ Hreq).
  destruct (is_action _ "saveVideo").
  { destruct (handleSaveVideo_outcome b (prop request "data") w)
      as (w' & response & Hrun & Hsent & _).
    unfold bind. rewrite Hrun. eauto. }
  destruct (is_action _ "syncVideos").
  { destruct (handleSyncVideos_answers b w)
      as (w' & response & Hrun & Hsent & _).
    unfold bind. rewrite Hrun. eauto. }
  pose proof (next_fault_frame w) as (_ & _ & _ & Fsent).
  destruct (is_action _ "getVideoInfo").
  { unfold bind, handleGetVideoInfo, try_catch, bind, db_read.
    destruct (next_fault w) as [[e|] w1]; cbn in *; [eauto|].
    destruct (getVideoByUrl _ _); eauto. }
  destruct (is_action _ "getVideoByUrl").
  { unfold bind, handleGetVideoByUrl, try_catch, bind, db_read.
    destruct (next_fault w) as [[e|] w1]; cbn in *; [eauto|].
    destruct (getVideoByUrl _ _); eauto. }
  destruct (is_action _ "getAllVideos").
  { unfold bind, handleGetAllVideos, try_catch, bind, db_read.
    destruct (next_fault w) as [[e|] w1]; cbn in *; [eauto|].
    destruct (getAllVideos _); eauto. }
  unfold bind. cbn. eauto.
Qed.

End BackgroundFacts.

(** * Properties of the handlers over the specified catalog *)

Lemma reconcile_null (b : Browser) d a u (w : world) :
  nullish d = true ->
  exists e, reconcile b d a u w = (inl e, w).
Proof.
  intros Hn. unfold reconcile, try_catch, bind, convert, lift.
  destruct d; try discriminate; eexists; reflexivity.
Qed.

Lemma to_video_id d t : prop (to_video d t) "id" = prop d "id".
Proof. reflexivity. Qed.

Lemma to_video_is_new d t : prop (to_video d t) "is_new" = prop d "is_new".
Proof. reflexivity. Qed.

Lemma to_video_saved_at d t :
  prop (to_video d t) "saved_at" = prop d "date_added".
Proof. reflexivity. Qed.


(** One descriptor, whatever the storage layer does: the loop goes on, and
    the store is as before or has the descriptor's record under its id. *)
Lemma reconcile_db (b : Browser) d a u (w : world) :
  nullish d = false ->
  exists counters w',
    reconcile b d a u w = (inr counters, w') /\
    (w_db w' = w_db w \/
     exists k t,
       prop d "id" = VStr k /\
       w_db w' = <[k := to_video d t]> (w_db w : gmap string value)).
Proof.
  intros Hn.
  unfold reconcile, try_catch, bind, convert, lift, now, db_read, db_write,
    next_fault.
  rewrite (get_prop_defined _ _ Hn). cbn. unfold get, put.
  rewrite to_video_id.
  destruct (key_of (prop d "id")) as [k|] eqn:Ek.
  2: { destruct (w_faults w) as [|[e|] rest]; cbn;
       eexists; eexists; (split; [reflexivity|]); now left. }
  assert (prop d "id" = VStr k) as Eid.
  { destruct (prop d "id"); cbn in Ek; congruence. }
  destruct (w_faults w) as [|[e|] rest]; cbn.
  - destruct (truthy _); cbn; eexists; eexists; (split; [reflexivity|]);
      right; eauto.
  - eexists; eexists; (split; [reflexivity|]); now left.
  - destruct (truthy _); cbn; destruct rest as [|[e|] rest]; cbn;
      eexists; eexists; (split; [reflexivity|]); (now left) || (right; eauto).
Qed.

(** What holds of the store before the loop and is kept by every upsert the
    payload can cause holds after the loop, however the run goes. *)
Lemma process_invariant (P : gmap string value -> Prop) (b : Browser) ds :
  (forall d k t store,
     d ∈ ds -> prop d "id" = VStr k -> P store ->
     P (<[k := to_video d t]> store)) ->
  forall a u (w : world),
    P (w_db w) -> P (w_db (snd (process b ds a u w))).
Proof.
  induction ds as [|d rest IH]; intros Hstep a u w HP; cbn [process].
  - exact HP.
  - unfold bind. destruct (nullish d) eqn:Hn.
    + destruct (reconcile_null b d a u w Hn) as [e ->]. exact HP.
    + destruct (reconcile_db b d a u w Hn) as (c & w' & -> & Hdb).
      apply IH.
      * intros d' k t store Hin. apply Hstep. now right.
      * destruct Hdb as [->|(k & t & Eid & ->)]; [exact HP|].
        apply Hstep; [now left|exact Eid|exact HP].
Qed.

Lemma sync_db b (w : world) :
  w_db (snd (handleSyncVideos b w)) =
  w_db (snd (process b (descriptors b) 0 0 w)).
Proof.
  rewrite handleSyncVideos_cases. unfold descriptors.
  destruct (acquire b) as [text source]. cbn [fst].
  destruct (negb (nonempty text)) eqn:E.
  { apply negb_true_iff, nonempty_false in E. subst text. reflexivity. }
  destruct (JSON_parse text) as [parsed|]; [|reflexivity].
  destruct (normalize parsed) as [|d rest]; [reflexivity|].
  cbn [length Nat.eqb].
  destruct (process b (d :: rest) 0 0 w) as [[e|c] w']; reflexivity.
Qed.

(** *** Index keys are no data keys *)

Lemma pretty_N_char_digit x : is_digit (pretty_N_char x) = true.
Proof. unfold pretty_N_char. repeat case_match; reflexivity. Qed.

Lemma pretty_N_go_digit_headed x :
  forall s, digit_headed s = true -> digit_headed (pretty_N_go x s) = true.
Proof.
  induction (N.lt_wf_0 x) as [x _ IH]; intros s Hs.
  assert (x = 0 \/ 0 < x)%N as [->|Hpos] by lia.
  - now rewrite pretty_N_go_0.
  - rewrite pretty_N_go_step by exact Hpos.
    apply IH; [now apply N.div_lt|]. apply pretty_N_char_digit.
Qed.

Lemma pretty_nat_digit_headed (n : nat) : digit_headed (pretty n) = true.
Proof.
  unfold pretty, pretty_nat, pretty, pretty_N.
  case_decide; [reflexivity|]. now apply pretty_N_go_digit_headed.
Qed.

Lemma assoc_index_fields k i xs :
  digit_headed k = false -> assoc k (index_fields i xs) = None.
Proof.
  intros Hk. revert i. induction xs as [|x rest IH]; intros i; cbn.
  - reflexivity.
  - destruct (String.eqb k (pretty i)) eqn:E; [|apply IH].
    apply String.eqb_eq in E. subst k.
    rewrite pretty_nat_digit_headed in Hk. discriminate.
Qed.

Lemma assoc_obj_set_other k k' v fs :
  String.eqb k k' = false -> assoc k (obj_set k' v fs) = assoc k fs.
Proof.
  intros Hk. induction fs as [|[k0 v0] rest IH]; cbn.
  - now rewrite Hk.
  - destruct (String.eqb k' k0) eqn:E; cbn.
    + apply String.eqb_eq in E. subst k0. now rewrite Hk.
    + now rewrite IH.
Qed.

(** Stamping a payload changes none of its data fields. *)
Lemma stamped_prop v savedAt lastSyncedAt k :
  digit_headed k = false ->
  String.eqb k "savedAt" = false ->
  String.eqb k "lastSyncedAt" = false ->
  prop (stamped v savedAt lastSyncedAt) k = prop v k.
Proof.
  intros Hd H1 H2. unfold stamped, prop.
  rewrite !assoc_obj_set_other by assumption.
  destruct v; cbn; try reflexivity; now rewrite assoc_index_fields.
Qed.

(** What a [saveVideo] does to the specified store: nothing, or one record
    put under its id, with the payload's [id] and [is_new]. *)
Lemma save_db b videoInfo (w : world) :
  w_db (snd (handleSaveVideo b videoInfo w)) = w_db w \/
  exists k record,
    w_db (snd (handleSaveVideo b videoInfo w)) =
      <[k := record]> (w_db w : gmap string value) /\
    prop videoInfo "id" = VStr k /\
    prop record "is_new" = prop videoInfo "is_new".
Proof.
  destruct (handleSaveVideo_outcome b videoInfo w)
    as (w' & response & -> & _ & [[_ (record & Hput & Hrec)]|(e & _ & Hdb)]).
  2: { left. exact Hdb. }
  right. cbn in Hput. unfold put in Hput.
  destruct (key_of (prop record "id")) as [k|] eqn:Ek; [|discriminate].
  injection Hput as Hput. exists k, record. cbn [snd responded w_db].
  assert (prop record "id" = VStr k) as Eid.
  { destruct (prop record "id"); cbn in Ek; congruence. }
  destruct Hrec as [->|(_ & t1 & t2 & ->)].
  - repeat split; [now symmetry|exact Eid].
  - rewrite stamped_prop in Eid by reflexivity.
    rewrite stamped_prop by reflexivity.
    repeat split; [now symmetry|exact Eid].
Qed.

Lemma writes_to_id k payload : prop payload "id" = VStr k -> writes_to k payload = true.
Proof. intros E. unfold writes_to. rewrite E. apply String.eqb_refl. Qed.

(** C7 (as amended).  Every write replaces the whole record with the
    incoming payload, [is_new] included.  So a record marked as watched
    ([is_new] is ['No']) stays in the store and stays watched through any
    sequence of [saveVideo] and sync operations in which every payload
    carrying its id says ['No'] as well. *)
Theorem watched_stays_watched k ops :
  forall (w : world) record,
    (w_db w : gmap string value) !! k = Some record ->
    says_No record = true ->
    forallb (keeps_No k) ops = true ->
    exists record',
      (w_db (perform_all ops w) : gmap string value) !! k = Some record' /\
      says_No record' = true.
Proof.
  induction ops as [|op rest IH]; intros w record Hl Hno Hops; cbn in *.
  - eauto.
  - apply andb_true_iff in Hops as [Hop Hrest].
    assert (exists record',
              (w_db (perform op w) : gmap string value) !! k = Some record' /\
              says_No record' = true) as (record' & Hl' & Hno').
    2: { eapply IH; eassumption. }
    destruct op as [b videoInfo|b]; cbn [perform keeps_No] in *.
    + destruct (save_db b videoInfo w) as [->|(k' & new & -> & Eid & Enew)].
      { eauto. }
      rewrite lookup_insert. case_decide as Hk; [|eauto].
      subst k'. exists new. split; [reflexivity|].
      rewrite (writes_to_id _ _ Eid) in Hop. cbn in Hop.
      unfold says_No in *. now rewrite Enew.
    + rewrite sync_db.
      apply (process_invariant
               (fun store => exists record',
                  store !! k = Some record' /\ says_No record' = true));
        [|eauto].
      intros d k' t store Hin Eid (r & Hr & Hrno).
      rewrite lookup_insert. case_decide as Hk; [|eauto].
      subst k'. eexists. split; [reflexivity|].
      rewrite forallb_forall in Hop.
      apply list_elem_of_In, Hop in Hin.
      rewrite (writes_to_id _ _ Eid) in Hin. cbn in Hin.
      unfold says_No in *. now rewrite to_video_is_new.
Qed.

(** *** Two runs on the same payload *)















(** * Concrete runs *)

(** C1, counterexample.  A [getAllVideos] request from another extension to
    the background listener: the sender is foreign, and no response is sent,
    so in particular not the Unauthorized sender one. *)
Lemma background_ignores_foreign_sender :
  foreign (browser_with_clipboard "") other_extension = true /\
  w_sent
    (snd (background_onMessage (browser_with_clipboard "")
            (VObj [("action", VStr "getAllVideos")]) other_extension
            (world_with ∅))) = [] /\
  w_sent
    (snd (background_onMessage (browser_with_clipboard "")
            (VObj [("action", VStr "getAllVideos")]) other_extension
            (world_with ∅)))
  <> [response_failure "Unauthorized sender"].
Proof. repeat split. discriminate. Qed.

(** [foreign_sender_not_serviced] on that request, and on a
    [readClipboard] request to the content script. *)
Lemma foreign_sender_not_serviced_witness :
  foreign (browser_with_clipboard "") other_extension = true /\
  background_onMessage (browser_with_clipboard "")
    (VObj [("action", VStr "getAllVideos")]) other_extension (world_with ∅) =
    (inr false, world_with ∅) /\
  content_onMessage (browser_with_clipboard "")
    (VObj [("action", VStr "readClipboard")]) other_extension (world_with ∅) =
    (inr false,
     responded (world_with ∅) (response_failure "Unauthorized sender")).
Proof.
  split; [reflexivity|].
  split;
    [apply (foreign_sender_not_serviced (browser_with_clipboard "")
              (VObj [("action", VStr "getAllVideos")]) other_extension
              (world_with ∅) eq_refl)
    |apply (foreign_sender_not_serviced (browser_with_clipboard "")
              (VObj [("action", VStr "readClipboard")]) other_extension
              (world_with ∅) eq_refl)].
Defined.

(** [malformed_payload_rejected] on the text [not json]. *)
Lemma malformed_payload_rejected_witness :
  acquire (browser_with_clipboard "not json") = ("not json", "background_script") /\
  JSON_parse "not json" = None /\
  exists response,
    handleSyncVideos (browser_with_clipboard "not json") (world_with ∅) =
      (inr tt, responded (world_with ∅) response) /\
    prop response "success" = VBool false /\
    prop response "needsManualPaste" = VBool true.
Proof.
  split; [reflexivity|]. split; [reflexivity|].
  apply (malformed_payload_rejected (browser_with_clipboard "not json")
           (world_with ∅) "not json" "background_script");
    reflexivity.
Defined.


Lemma payload_a_descriptors :
  descriptors (browser_with_clipboard payload_a) = [descriptor_a].
Proof. vm_compute. reflexivity. Qed.



(** C7, counterexample.  Record [a] is in the store, watched ([is_new] is
    ['No']); a sync whose payload has [a] with [is_new] ['Yes'] leaves it
    marked as new. *)
Lemma sync_marks_watched_as_new :
  (fun record => prop record "is_new") <$> store_a !! "a" = Some (VStr "No") /\
  (fun record => prop record "is_new") <$>
    (w_db (perform_all [SyncVideos (browser_with_clipboard payload_a)]
             (world_with store_a)) : gmap string value) !! "a" =
    Some (VStr "Yes").
Proof. split; vm_compute; reflexivity. Qed.

(** An id that the payload spells with escapes is the id itself: the sync
    reaches the record stored under the character, counts an update and
    marks the record as new. *)
Lemma escaped_id_reaches_its_record :
  let store : gmap string value :=
    {[ "😀" := VObj [("id", VStr "😀"); ("is_new", VStr "No")] ]} in
  let b :=
    browser_with_clipboard
      (dq "[{'id':'\ud83d\ude00','is_new':'Yes'}]") in
  let w' := snd (handleSyncVideos b (world_with store)) in
  w_sent w' = [response_synced 0 1] /\
  (fun record => prop record "is_new") <$>
    (w_db w' : gmap string value) !! "😀" = Some (VStr "Yes").
Proof. cbv zeta. split; vm_compute; reflexivity. Qed.

(** The same happens through [saveVideo], with the record the content
    script builds for a video saved once more ([is_new: 'Yes']). *)
Lemma save_marks_watched_as_new :
  (fun record => prop record "is_new") <$>
    (w_db (perform_all
             [SaveVideo (browser_with_clipboard "")
                (VObj [ ("id", VStr "a"); ("title", VStr "A");
                        ("url", VStr "https://www.youtube.com/watch?v=a");
                        ("is_new", VStr "Yes") ])]
             (world_with store_a)) : gmap string value) !! "a" =
    Some (VStr "Yes").
Proof. vm_compute. reflexivity. Qed.

(** [watched_stays_watched] on a sync that carries [a] as watched, followed
    by a save of another video. *)
Lemma watched_stays_watched_witness :
  store_a !! "a" = Some record_a /\
  says_No record_a = true /\
  exists record',
    (w_db (perform_all
             [ SyncVideos (browser_with_clipboard payload_a_watched);
               SaveVideo (browser_with_clipboard "")
                 (VObj [ ("id", VStr "b");
                         ("url", VStr "https://www.youtube.com/watch?v=b");
                         ("is_new", VStr "Yes") ]) ]
             (world_with store_a)) : gmap string value) !! "a" = Some record' /\
    says_No record' = true.
Proof.
  split; [reflexivity|]. split; [reflexivity|].
  apply (watched_stays_watched "a"
           [ SyncVideos (browser_with_clipboard payload_a_watched);
             SaveVideo (browser_with_clipboard "")
               (VObj [ ("id", VStr "b");
                       ("url", VStr "https://www.youtube.com/watch?v=b");
                       ("is_new", VStr "Yes") ]) ]
           (world_with store_a) record_a);
    vm_compute; reflexivity.
Defined.



(** C4, the failing input.  The payload lists [a], then [null], then [c].
    The first descriptor is added.  On [null] both the loop body and its
    catch clause throw, the error reaches the outer catch, and the run ends
    with a failure response: [c] is never processed and no counts are
    reported. *)
Theorem null_descriptor_aborts_sync :
  let b := browser_with_clipboard (dq "[{'id':'a'},null,{'id':'c'}]") in
  let w' := snd (handleSyncVideos b (world_with ∅)) in
  w_sent w' =
    [response_manual_paste "Cannot read properties of null (reading 'id')"] /\
  is_Some ((w_db w' : gmap string value) !! "a") /\
  (w_db w' : gmap string value) !! "c" = None.
Proof.
  cbv zeta. split; [vm_compute; reflexivity|].
  split; [vm_compute; eexists; reflexivity|vm_compute; reflexivity].
Qed.

(** With a second descriptor that is an object without [id], the run goes
    through: two videos are counted and both are in the store. *)
Lemma descriptor_without_id_is_skipped :
  let b :=
    browser_with_clipboard (dq "[{'id':'a'},{'title':'no id'},{'id':'c'}]") in
  let w' := snd (handleSyncVideos b (world_with ∅)) in
  w_sent w' = [response_synced 2 0] /\
  is_Some ((w_db w' : gmap string value) !! "a") /\
  is_Some ((w_db w' : gmap string value) !! "c").
Proof.
  cbv zeta. split; [vm_compute; reflexivity|].
  split; vm_compute; eexists; reflexivity.
Qed.

(** [handleSaveVideo_by_shape] on a payload with [id] and [url], on one
    without [url], and on one without [id], which the store refuses. *)
Lemma handleSaveVideo_by_shape_witness :
  (carries_both video_v1 = true /\
   handleSaveVideo (browser_with_clipboard "") video_v1 (world_with ∅) =
     (inr tt,
      World ({[ "v1" := video_v1 ]} : gmap string value) [] 0 []
        [response_message "Video saved to database"])) /\
  (carries_both video_v2 = false /\
   handleSaveVideo (browser_with_clipboard "") video_v2 (world_with ∅) =
     (inr tt,
      World
        ({[ "v2" :=
              VObj [ ("id", VStr "v2"); ("title", VStr "T");
                     ("savedAt", VStr (clock 0));
                     ("lastSyncedAt", VStr (clock 1)) ] ]}
         : gmap string value)
        [] 2 ["play://add?url=undefined"]
        [response_message "Video saved to Play"])) /\
  (carries_both video_v3 = false /\
   handleSaveVideo (browser_with_clipboard "") video_v3 (world_with ∅) =
     (inr tt,
      World (∅ : gmap string value) [] 2
        ["play://add?url=https%3A%2F%2Fx%2Fv3"]
        [response_failure "The record store needs a string id as key"])).
Proof.
  destruct (handleSaveVideo_by_shape (browser_with_clipboard "") video_v1
              (world_with ∅)) as (Hdirect & _).
  destruct (handleSaveVideo_by_shape (browser_with_clipboard "") video_v2
              (world_with ∅)) as (_ & Hhandoff & _).
  destruct (handleSaveVideo_by_shape (browser_with_clipboard "") video_v3
              (world_with ∅)) as (_ & _ & _ & _ & _ & Hrefused & _).
  split; [|split]; (split; [reflexivity|]).
  - apply (Hdirect eq_refl eq_refl eq_refl). reflexivity.
  - apply (Hhandoff eq_refl eq_refl eq_refl "undefined"); reflexivity.
  - apply (Hrefused eq_refl eq_refl "https%3A%2F%2Fx%2Fv3" InvalidKey);
      [reflexivity|reflexivity|right; split; reflexivity].
Defined.

(** The direct-save scenario of the specification: after the save, a lookup
    by the url finds the record. *)
Lemma direct_save_then_lookup :
  let b := browser_with_clipboard "" in
  let w1 := snd (handleSaveVideo b video_v1 (world_with ∅)) in
  w_sent (snd (handleGetVideoByUrl (VStr "https://x/v1") w1)) =
    [ response_message "Video saved to database";
      VObj [("success", VBool true); ("video", video_v1)] ].
Proof. vm_compute. reflexivity. Qed.

(** A payload without [id] opens the companion application, and the
    specified store then refuses the record: the answer is a failure and
    the store is as before. *)
Lemma handoff_without_id_is_refused :
  let b := browser_with_clipboard "" in
  let w1 :=
    snd (handleSaveVideo b (VObj [("url", VStr "https://x/v3")]) (world_with ∅)) in
  w_tabs w1 = ["play://add?url=https%3A%2F%2Fx%2Fv3"] /\
  w_sent w1 = [response_failure "The record store needs a string id as key"] /\
  w_db w1 = (∅ : gmap string value).
Proof. cbv zeta. repeat split; vm_compute; reflexivity. Qed.

(** * More about the background worker, for every catalog service *)
Section MoreBackgroundFacts.

Context `{DbService}.

(** X1.  A request of the extension itself whose action is none of the five
    the background listener knows (a missing action included) gets the
    Unknown action failure and nothing else happens: the listener does not
    keep the channel open and the world is otherwise unchanged. *)
Theorem unknown_action_is_refused b request sender w :
  foreign b sender = false ->
  nullish request = false ->
  existsb (is_action (prop request "action")) background_actions = false ->
  background_onMessage b request sender w =
    (inr false, responded w (response_failure "Unknown action")).
Proof.
  intros Hown Hreq Hnone. unfold background_onMessage. rewrite Hown.
  unfold bind at 1, lift. rewrite (get_prop_defined _ _ Hreq).
  cbn in Hnone. repeat (apply orb_false_iff in Hnone as [? Hnone]).
  repeat match goal with E : is_action _ _ = false |- _ => rewrite E; clear E end.
  reflexivity.
Qed.

(** X2.  A request of the extension itself is answered exactly once when it
    is an object, whatever its action, and the listener keeps the channel
    open exactly when the action is one of the five it hands to a handler.
    When the request is [null] or [undefined] the listener throws on reading
    the action: nothing is sent and the world is unchanged. *)
Theorem own_sender_is_answered_once b request sender w :
  foreign b sender = false ->
  (nullish request = true ->
   exists e, background_onMessage b request sender w = (inl e, w)) /\
  (nullish request = false ->
   exists w' response,
     background_onMessage b request sender w =
       (inr (existsb (is_action (prop request "action")) background_actions),
        responded w' response) /\
     w_sent w' = w_sent w).
Proof.
  intros Hown. unfold background_onMessage. rewrite Hown. split.
  - intros Hreq. unfold bind, lift.
    destruct request; try discriminate; eexists; reflexivity.
  - intros Hreq.
    unfold bind at 1, lift. rewrite (get_prop_defined _ _ Hreq).
    unfold background_actions. cbn [existsb].
    destruct (is_action _ "saveVideo"); cbn [orb].
    { destruct (handleSaveVideo_outcome b (prop request "data") w)
        as (w' & response & Hrun & Hsent & _).
      unfold bind. rewrite Hrun. eauto. }
    destruct (is_action _ "syncVideos"); cbn [orb].
    { destruct (handleSyncVideos_answers b w)
        as (w' & response & Hrun & Hsent & _).
      unfold bind. rewrite Hrun. eauto. }
    pose proof (next_fault_frame w) as (_ & _ & _ & Fsent).
    destruct (is_action _ "getVideoInfo"); cbn [orb].
    { unfold bind, handleGetVideoInfo, try_catch, bind, db_read.
      destruct (next_fault w) as [[e|] w1]; cbn in *; [eauto|].
      destruct (getVideoByUrl _ _); eauto. }
    destruct (is_action _ "getVideoByUrl"); cbn [orb].
    { unfold bind, handleGetVideoByUrl, try_catch, bind, db_read.
      destruct (next_fault w) as [[e|] w1]; cbn in *; [eauto|].
      destruct (getVideoByUrl _ _); eauto. }
    destruct (is_action _ "getAllVideos"); cbn [orb].
    { unfold bind, handleGetAllVideos, try_catch, bind, db_read.
      destruct (next_fault w) as [[e|] w1]; cbn in *; [eauto|].
      destruct (getAllVideos _); eauto. }
    unfold bind. cbn. eauto.
Qed.

(** *** Acquiring the payload text *)

(** X3.  First success wins: when the active tab gives text (through the
    injected reader or the content script), that text and its source are
    what the sync works on, and [navigator.clipboard.readText] of the
    background is not consulted: whatever it would answer, the result is
    the same. *)
Theorem page_text_wins b answer :
  nonempty (fst (read_via_tab b)) = true ->
  acquire b = read_via_tab b /\
  acquire (with_clipboard b answer) = acquire b.
Proof.
  intros Htext. unfold acquire.
  change (read_via_tab (with_clipboard b answer)) with (read_via_tab b).
  destruct (read_via_tab b) as [text source]. cbn in Htext.
  rewrite Htext. split; reflexivity.
Qed.

(** X4.  The content script is asked for the clipboard only after the
    injection has thrown: in a browser where [executeScript] returns, on
    every tab, the acquired text and source are the same whatever answers
    [chrome.tabs.sendMessage]. *)
Theorem relay_only_after_failed_injection b relay :
  (forall tab, exists results, scripting_executeScript b tab = inr results) ->
  acquire (with_relay b relay) = acquire b.
Proof.
  intros Hinject.
  assert (read_via_tab (with_relay b relay) = read_via_tab b) as Hsame.
  { unfold read_via_tab. cbn.
    destruct (tabs_query b) as [e|[|tab tabs]]; try reflexivity.
    destruct (tab_id tab) as [[|n]|]; try reflexivity.
    destruct (Hinject (S n)) as [results ->]. reflexivity. }
  unfold acquire. rewrite Hsame. reflexivity.
Qed.

(** X5.  When no strategy yields text, the sync answers the
    could-not-read-clipboard failure, which names the last source that
    answered, and does nothing else: nothing is parsed, no storage call is
    made, the world is otherwise unchanged. *)
Theorem no_text_no_sync b w :
  fst (acquire b) = "" ->
  handleSyncVideos b w =
    (inr tt, responded w (response_no_clipboard (snd (acquire b)))).
Proof.
  intros Hnone. rewrite handleSyncVideos_cases.
  destruct (acquire b) as [text source]. cbn in *. subst text. reflexivity.
Qed.

(** An error that leaves the loop comes from the catch clause's read of
    [playVideo.id]. *)
Lemma process_error b playVideos :
  forall videosAdded videosUpdated w e w',
    process b playVideos videosAdded videosUpdated w = (inl e, w') ->
    e = TypeError_null "id" \/ e = TypeError_undefined "id".
Proof.
  induction playVideos as [|d rest IH]; intros a u w e w'; cbn [process].
  - discriminate.
  - unfold bind.
    destruct (reconcile b d a u w) as [[e0|c] w0] eqn:Hrec.
    + intros [= <- <-]. unfold reconcile, try_catch in Hrec.
      match type of Hrec with
      | context [match ?m with _ => _ end] => destruct m as [[e1|c1] w1]
      end; [|discriminate].
      unfold bind, lift in Hrec.
      destruct d; cbn in Hrec; try discriminate;
        injection Hrec as <- _; auto.
    + apply IH.
Qed.

(** X6.  The second check for missing text (lines 286-294) is never taken:
    no run of the sync handler answers its
    no-data-found-in-clipboard failure. *)
Theorem stale_check_never_answers b w :
  exists w' response,
    handleSyncVideos b w = (inr tt, responded w' response) /\
    response <>
      response_manual_paste
        "No data found in clipboard. Please ensure your shortcut copies JSON data.".
Proof.
  rewrite handleSyncVideos_cases.
  destruct (acquire b) as [text source].
  destruct (negb (nonempty text)).
  { eexists. eexists. split; [reflexivity|]. discriminate. }
  destruct (JSON_parse text) as [parsed|].
  2: { eexists. eexists. split; [reflexivity|]. discriminate. }
  destruct (length (normalize parsed) =? 0)%nat.
  { eexists. eexists. split; [reflexivity|]. discriminate. }
  destruct (process b (normalize parsed) 0 0 w) as [[e|c] w'] eqn:Hrun.
  - eexists. eexists. split; [reflexivity|].
    destruct (process_error _ _ _ _ _ _ _ Hrun) as [->| ->]; discriminate.
  - eexists. eexists. split; [reflexivity|]. discriminate.
Qed.

(** *** The loop and the storage layer *)








End MoreBackgroundFacts.

(** *** What a stamped payload holds *)

Lemma assoc_obj_set_same k v fs : assoc k (obj_set k v fs) = Some v.
Proof.
  induction fs as [|[k0 v0] rest IH]; cbn.
  - now rewrite String.eqb_refl.
  - destruct (String.eqb k k0) eqn:E; cbn.
    + now rewrite String.eqb_refl.
    + now rewrite E.
Qed.

(** X9.  The record of the handoff path, [{...videoInfo, savedAt,
    lastSyncedAt}], carries the two fresh stamps whatever [savedAt] and
    [lastSyncedAt] the payload had of its own; when the payload is an
    object, every other field of it is in the record unchanged. *)
Theorem stamps_replace_payload_stamps videoInfo savedAt lastSyncedAt :
  prop (stamped videoInfo savedAt lastSyncedAt) "savedAt" = VStr savedAt /\
  prop (stamped videoInfo savedAt lastSyncedAt) "lastSyncedAt" =
    VStr lastSyncedAt /\
  forall fields k,
    videoInfo = VObj fields -> k <> "savedAt" -> k <> "lastSyncedAt" ->
    prop (stamped videoInfo savedAt lastSyncedAt) k = prop videoInfo k.
Proof.
  split; [|split].
  - unfold stamped, prop.
    rewrite assoc_obj_set_other by reflexivity.
    now rewrite assoc_obj_set_same.
  - unfold stamped, prop. now rewrite assoc_obj_set_same.
  - intros fields k -> H1 H2. unfold stamped, prop. cbn [spread].
    rewrite !assoc_obj_set_other; [reflexivity| |].
    + destruct (String.eqb k "savedAt") eqn:E; [|reflexivity].
      apply String.eqb_eq in E. contradiction.
    + destruct (String.eqb k "lastSyncedAt") eqn:E; [|reflexivity].
      apply String.eqb_eq in E. contradiction.
Qed.

(** * More about the handlers over the specified catalog *)

(** *** Counting *)






(** *** What the writes keep *)

(** What a [saveVideo] does to the specified store: nothing, or one record
    put under its own id. *)
Lemma save_db_keyed b videoInfo (w : world) :
  w_db (snd (handleSaveVideo b videoInfo w)) = w_db w \/
  exists k record,
    w_db (snd (handleSaveVideo b videoInfo w)) =
      <[k := record]> (w_db w : gmap string value) /\
    prop record "id" = VStr k.
Proof.
  destruct (handleSaveVideo_outcome b videoInfo w)
    as (w' & response & -> & _ & [[_ (record & Hput & _)]|(e & _ & Hdb)]).
  2: { left. exact Hdb. }
  right. cbn in Hput. unfold put in Hput.
  destruct (key_of (prop record "id")) as [k|] eqn:Ek; [|discriminate].
  injection Hput as Hput. exists k, record. cbn [snd responded w_db].
  split; [now symmetry|].
  destruct (prop record "id"); cbn in Ek; congruence.
Qed.

(** What is kept by putting a record under its own id is kept by every
    sequence of [saveVideo] and sync operations. *)
Lemma perform_all_invariant (P : gmap string value -> Prop) :
  (forall k record store,
     prop record "id" = VStr k -> P store -> P (<[k := record]> store)) ->
  forall ops (w : world), P (w_db w) -> P (w_db (perform_all ops w)).
Proof.
  intros Hput. induction ops as [|op rest IH]; intros w HP; cbn; [exact HP|].
  apply IH. destruct op as [b videoInfo|b]; cbn [perform].
  - destruct (save_db_keyed b videoInfo w) as [->|(k & record & -> & Hid)];
      [exact HP|]. now apply Hput.
  - rewrite sync_db. apply process_invariant; [|exact HP].
    intros d k t store _ Hid. apply Hput. now rewrite to_video_id.
Qed.

(** X11.  Nothing is ever deleted: a key that holds a record keeps holding
    one through every sequence of [saveVideo] and sync operations, whatever
    the payloads and whatever the storage layer rejects. *)
Theorem catalog_only_grows ops (w : world) k :
  is_Some ((w_db w : gmap string value) !! k) ->
  is_Some ((w_db (perform_all ops w) : gmap string value) !! k).
Proof.
  apply (perform_all_invariant (fun store => is_Some (store !! k))).
  intros k' record store _ Hk. rewrite lookup_insert.
  case_decide; [eauto|exact Hk].
Qed.

(** X12.  No two records with the same id: starting from a store in which
    every record sits under its own id, after any sequence of [saveVideo]
    and sync operations [getAllVideos] (storage working) answers a list that
    holds every stored record and no two records with the same [id]. *)
Theorem catalog_lists_distinct_ids ops (w : world) :
  keyed (w_db w) ->
  fst (next_fault (perform_all ops w)) = None ->
  exists videos,
    handleGetAllVideos (perform_all ops w) =
      (inr tt,
       responded (snd (next_fault (perform_all ops w)))
         (VObj [("success", VBool true); ("videos", VArr videos)])) /\
    NoDup ((fun record => prop record "id") <$> videos) /\
    (forall record,
       record ∈ videos <->
       exists k,
         (w_db (perform_all ops w) : gmap string value) !! k = Some record).
Proof.
  intros Hkeyed Hfault.
  assert (keyed (w_db (perform_all ops w))) as Hk.
  { apply (perform_all_invariant keyed); [|exact Hkeyed].
    intros k record store Hid Hstore k' record'. rewrite lookup_insert.
    case_decide; [|apply Hstore]. intros [= <-]. now subst. }
  pose proof (next_fault_frame (perform_all ops w)) as (Fdb & _).
  exists (snd <$> map_to_list (w_db (perform_all ops w) : gmap string value)).
  split; [|split].
  - unfold handleGetAllVideos, try_catch, bind, db_read.
    destruct (next_fault (perform_all ops w)) as [fault w1].
    cbn in Hfault, Fdb. subst fault. cbn. unfold getAll. now rewrite Fdb.
  - assert (forall l : list (string * value),
              (forall kr, kr ∈ l -> prop (snd kr) "id" = VStr (fst kr)) ->
              (fun record => prop record "id") <$> (snd <$> l) =
              VStr <$> (fst <$> l)) as Hids.
    { induction l as [|kr l IH]; intros Hl; cbn; [reflexivity|].
      rewrite Hl by (now left). f_equal. apply IH.
      intros kr' Hin. apply Hl. now right. }
    rewrite Hids.
    + apply NoDup_fmap_2; [intros x y [=]; assumption|].
      apply NoDup_fst_map_to_list.
    + intros [k record] Hin. cbn. apply Hk.
      now apply elem_of_map_to_list.
  - intros record. rewrite list_elem_of_fmap. split.
    + intros ([k r] & -> & Hin). exists k. now apply elem_of_map_to_list.
    + intros [k Hl]. exists (k, record). split; [reflexivity|].
      now apply elem_of_map_to_list.
Qed.

(** *** Save, then look up *)

Lemma getByUrl_unique (store : gmap string value) u k record :
  store !! k = Some record ->
  has_url u record = true ->
  (forall k' record',
     store !! k' = Some record' -> has_url u record' = true -> k' = k) ->
  getByUrl (VStr u) store = inr record.
Proof.
  intros Hl Hu Honly. unfold getByUrl.
  destruct (List.find _ (map_to_list store)) as [[k' r']|] eqn:Ef.
  - apply find_some in Ef as [Hin Hurl]. cbn in Hurl.
    apply list_elem_of_In, elem_of_map_to_list in Hin.
    pose proof (Honly k' r' Hin Hurl) as ->.
    cbn. congruence.
  - pose proof (find_none _ _ Ef (k, record)) as Hnone. cbn in Hnone.
    rewrite Hnone in Hu; [discriminate|].
    apply list_elem_of_In, elem_of_map_to_list. exact Hl.
Qed.

Lemma direct_save_run b videoInfo id url (w : world) :
  prop videoInfo "id" = VStr id -> nonempty id = true ->
  prop videoInfo "url" = VStr url -> nonempty url = true ->
  w_faults w = [] ->
  handleSaveVideo b videoInfo w =
    (inr tt,
     World (<[id := videoInfo]> (w_db w : gmap string value)) []
       (w_clock w) (w_tabs w)
       (w_sent w ++ [response_message "Video saved to database"])).
Proof.
  intros Hid Hidne Hurl Hurlne Hf.
  assert (nullish videoInfo = false) as Hn
    by (destruct videoInfo; cbn in Hid; try discriminate; reflexivity).
  unfold handleSaveVideo, try_catch, bind, lift, db_write, next_fault.
  rewrite !(get_prop_defined _ _ Hn), Hurl, Hid. cbn [truthy ret].
  unfold nonempty in Hidne, Hurlne. rewrite Hurlne, Hidne.
  unfold ret. cbn beta iota.
  rewrite Hf. cbn. unfold put. rewrite Hid. cbn.
  unfold sendResponse, responded. cbn. now rewrite Hf.
Qed.

Lemma lookup_after_save videoInfo id url (store : gmap string value) :
  prop videoInfo "url" = VStr url ->
  (forall k record,
     store !! k = Some record -> has_url url record = true -> k = id) ->
  getByUrl (VStr url) (<[id := videoInfo]> store) = inr videoInfo.
Proof.
  intros Hurl Honly. apply (getByUrl_unique _ url id videoInfo).
  - apply lookup_insert_eq.
  - unfold has_url. rewrite Hurl. apply String.eqb_refl.
  - intros k' r'. rewrite lookup_insert. case_decide as Hk; [congruence|].
    intros Hl Hu. exfalso. apply Hk. symmetry. eapply Honly; eassumption.
Qed.

(** X13.  Save, then look up.  After a direct save of a payload with a
    non-empty string [id] and a non-empty string [url], storage working, a
    lookup by that url answers [{success: true, video}] with the very
    payload, provided no record under another id has the same url. *)
Theorem saved_video_is_found_by_url b videoInfo id url (w : world) :
  prop videoInfo "id" = VStr id -> nonempty id = true ->
  prop videoInfo "url" = VStr url -> nonempty url = true ->
  w_faults w = [] ->
  (forall k record,
     (w_db w : gmap string value) !! k = Some record ->
     has_url url record = true -> k = id) ->
  let w1 := snd (handleSaveVideo b videoInfo w) in
  w_sent w1 = (w_sent w ++ [response_message "Video saved to database"])%list /\
  handleGetVideoByUrl (VStr url) w1 =
    (inr tt,
     responded w1 (VObj [("success", VBool true); ("video", videoInfo)])).
Proof.
  intros Hid Hidne Hurl Hurlne Hf Honly w1. subst w1.
  rewrite (direct_save_run b videoInfo id url w Hid Hidne Hurl Hurlne Hf).
  cbn [snd w_sent]. split; [reflexivity|].
  unfold handleGetVideoByUrl, try_catch, bind, db_read, next_fault.
  cbn -[getByUrl].
  now rewrite (lookup_after_save videoInfo id url _ Hurl Honly).
Qed.

(** * The content script *)
Section ContentScriptFacts.

Context `{DbService}.

Lemma utf16_length_nonempty text :
  (0 <? utf16_length text)%nat = nonempty text.
Proof.
  destruct text as [|c1 r1]; [reflexivity|].
  unfold utf16_length. cbn [list_ascii_of_string utf16_units].
  destruct (nat_of_ascii c1 <? 192)%nat; [reflexivity|].
  destruct (list_ascii_of_string r1) as [|c2 r2]; [reflexivity|].
  destruct (nat_of_ascii c1 <? 224)%nat; [reflexivity|].
  destruct r2 as [|c3 r3]; [reflexivity|].
  destruct (nat_of_ascii c1 <? 240)%nat; [reflexivity|].
  destruct r3 as [|c4 r4]; reflexivity.
Qed.

Lemma readClipboard_run b w :
  exists response, handleReadClipboard b w = (inr tt, responded w response).
Proof.
  unfold handleReadClipboard, try_catch.
  destruct (clipboard_available b); cbn [negb]; [|eexists; reflexivity].
  unfold bind, lift.
  destruct (clipboard_readText b); eexists; reflexivity.
Qed.

(** X14.  [handleReadClipboard] answers exactly once and changes nothing
    else.  The answer is a success exactly when the clipboard API is there
    and [readText] returns; it then carries the text as read, its length,
    and [hasContent] telling whether the text is non-empty.  Otherwise the
    answer is a failure with an error message; without the clipboard API,
    [readText] is not called. *)
Theorem readClipboard_reply b w :
  exists response,
    handleReadClipboard b w = (inr tt, responded w response) /\
    (clipboard_available b = true ->
     forall text,
       clipboard_readText b = inr text ->
       prop response "success" = VBool true /\
       prop response "text" = VStr text /\
       prop (prop response "debugInfo") "textLength" =
         number (utf16_length text) /\
       prop (prop response "debugInfo") "hasContent" = VBool (nonempty text)) /\
    (clipboard_available b = true ->
     forall e,
       clipboard_readText b = inl e ->
       prop response "success" = VBool false /\
       exists message, prop response "error" = VStr message) /\
    (clipboard_available b = false ->
     response = response_failure "Clipboard API not available in this context").
Proof.
  unfold handleReadClipboard, try_catch.
  destruct (clipboard_available b); cbn [negb].
  - unfold bind, lift. destruct (clipboard_readText b) as [e|text].
    + eexists. split; [reflexivity|]. split; [|split]; [| |discriminate].
      * intros _ text [=].
      * intros _ e' [= <-]. split; [reflexivity|]. eexists. reflexivity.
    + eexists. split; [reflexivity|]. split; [|split]; [| |discriminate].
      * intros _ text' [= <-]. repeat split.
        cbn. f_equal. apply utf16_length_nonempty.
      * intros _ e [=].
  - eexists. split; [reflexivity|]. split; [|split]; [discriminate..|].
    reflexivity.
Qed.

(** X15.  The content script answers every request that is an object
    exactly once and changes nothing else; it hands only [readClipboard]
    from the extension itself to a handler, keeping the channel open for
    it.  Every other action, the five of the background included, gets the
    Unknown action failure. *)
Theorem content_script_answers_every_request b request sender w :
  nullish request = false ->
  exists response,
    content_onMessage b request sender w =
      (inr (negb (foreign b sender)
            && is_action (prop request "action") "readClipboard"),
       responded w response) /\
    (foreign b sender = false ->
     is_action (prop request "action") "readClipboard" = false ->
     response = response_failure "Unknown action").
Proof.
  intros Hreq. unfold content_onMessage.
  destruct (foreign b sender).
  - eexists. split; [reflexivity|]. discriminate.
  - unfold bind at 1, lift. rewrite (get_prop_defined _ _ Hreq).
    destruct (is_action _ "readClipboard").
    + destruct (readClipboard_run b w) as [response Hrun].
      unfold bind. rewrite Hrun. eexists. split; [reflexivity|]. discriminate.
    + eexists. split; [reflexivity|]. reflexivity.
Qed.

Lemma own_sender_not_foreign b : foreign b (own_sender b) = false.
Proof. unfold foreign, own_sender. cbn. now rewrite String.eqb_refl. Qed.

(** X16.  The fallback through the content script, end to end.  When the
    injection into the active tab throws, and the content script of that
    tab can read the clipboard and finds a non-empty text there, the
    background acquires exactly that text, with source [content_script]. *)
Theorem relay_delivers_page_clipboard b page w tab tabs n e text :
  tabs_query b = inr (tab :: tabs) ->
  tab_id tab = Some (S n) ->
  scripting_executeScript b (S n) = inl e ->
  clipboard_available page = true ->
  clipboard_readText page = inr text ->
  nonempty text = true ->
  acquire (with_relay b (relay_through page w)) = (text, "content_script").
Proof.
  intros Htabs Htab Hinject Havailable Hread Htext.
  unfold acquire, read_via_tab. cbn. rewrite Htabs, Htab, Hinject.
  unfold relay_through, content_onMessage.
  rewrite own_sender_not_foreign. unfold bind at 1, lift. cbn.
  unfold bind, handleReadClipboard, try_catch, bind, lift.
  rewrite Havailable, Hread. cbn.
  rewrite drop_app_length. cbn. now rewrite Htext.
Qed.

End ContentScriptFacts.

(** ** Which page this is *)

Lemma prefix_split p : forall s, String.prefix p s = true -> exists r, s = p ++ r.
Proof.
  induction p as [|a p IH]; intros s Hp.
  - exists s. reflexivity.
  - destruct s as [|c s]; cbn in Hp; [discriminate|].
    destruct (ascii_dec a c) as [->|]; [|discriminate].
    destruct (IH s Hp) as [r ->]. exists r. reflexivity.
Qed.

Lemma eqb_true s t : String.eqb s t = true -> s = t.
Proof. apply String.eqb_eq. Qed.

(** X17.  A video page ([www.youtube.com], path [/watch]) is never an index
    page, and it is a playlist page exactly when its query string contains
    [list=]. *)
Theorem video_page_kinds location :
  isYouTubeVideoPage location = true ->
  isYouTubeIndexPage location = false /\
  isYouTubePlaylistPage location = includes (search location) "list=".
Proof.
  unfold isYouTubeVideoPage, isYouTubeIndexPage, isYouTubePlaylistPage.
  intros Hv. apply andb_true_iff in Hv as [Hhost Hpath].
  apply eqb_true in Hhost, Hpath. rewrite Hhost, Hpath. cbn.
  split; reflexivity.
Qed.

(** X18.  The path of a location holds no question mark.  For such a path
    the two playlist clauses of [isYouTubeIndexPage] never apply: an index
    page is a page of [www.youtube.com] whose path is [/],
    [/feed/subscriptions] or [/feed/trending] or starts with [/channel/],
    [/c/] or [/user/]; and an index page is never a playlist page. *)
Theorem index_page_without_query location :
  includes (pathname location) "?" = false ->
  isYouTubeIndexPage location =
    String.eqb (hostname location) "www.youtube.com" &&
    (String.eqb (pathname location) "/" ||
     String.eqb (pathname location) "/feed/subscriptions" ||
     String.eqb (pathname location) "/feed/trending" ||
     startsWith (pathname location) "/channel/" ||
     startsWith (pathname location) "/c/" ||
     startsWith (pathname location) "/user/") /\
  (isYouTubeIndexPage location = true ->
   isYouTubePlaylistPage location = false).
Proof.
  intros Hq.
  assert (startsWith (pathname location) "/playlist?list=" = false) as Hp1.
  { destruct (startsWith _ "/playlist?list=") eqn:E; [|reflexivity].
    apply prefix_split in E as [r E]. rewrite E in Hq. discriminate. }
  assert (startsWith (pathname location) "/watch?v=" = false) as Hp2.
  { destruct (startsWith _ "/watch?v=") eqn:E; [|reflexivity].
    apply prefix_split in E as [r E]. rewrite E in Hq. discriminate. }
  assert (isYouTubeIndexPage location =
          String.eqb (hostname location) "www.youtube.com" &&
          (String.eqb (pathname location) "/" ||
           String.eqb (pathname location) "/feed/subscriptions" ||
           String.eqb (pathname location) "/feed/trending" ||
           startsWith (pathname location) "/channel/" ||
           startsWith (pathname location) "/c/" ||
           startsWith (pathname location) "/user/")) as Hindex.
  { unfold isYouTubeIndexPage. rewrite Hp1, Hp2. cbn.
    now rewrite !orb_false_r. }
  split; [exact Hindex|].
  rewrite Hindex. intros Hi. apply andb_true_iff in Hi as [_ Hpath].
  unfold isYouTubePlaylistPage.
  repeat (apply orb_true_iff in Hpath as [Hpath|Hpath]);
    first [apply eqb_true in Hpath | apply prefix_split in Hpath as [r Hpath]];
    rewrite Hpath; cbn; apply andb_false_r.
Qed.

(** ** [extractVideoInfoFromCard] *)

Lemma string_of_list_ascii_app l1 l2 :
  string_of_list_ascii (l1 ++ l2) =
  string_of_list_ascii l1 ++ string_of_list_ascii l2.
Proof. induction l1 as [|c l1 IH]; cbn; [reflexivity|now rewrite IH]. Qed.

Lemma upto_ampersand_spec s :
  exists after,
    s = (upto_ampersand s ++ after)%list /\
    ~ In "&"%char (upto_ampersand s) /\
    (after = [] \/ exists r, after = "&"%char :: r).
Proof.
  induction s as [|c s (after & Hs & Hno & Hafter)]; cbn.
  - exists []. repeat split; auto.
  - destruct (Ascii.eqb c "&") eqn:E.
    + apply Ascii.eqb_eq in E. subst c. exists ("&"%char :: s).
      repeat split; eauto.
    + apply Ascii.eqb_neq in E. exists after. cbn. repeat split.
      * now rewrite <- Hs.
      * intros [?|?]; [congruence|contradiction].
      * exact Hafter.
Qed.

(** Where the match sits in the text. *)
Lemma v_group_spec s :
  forall run,
    v_group s = Some run ->
    exists before c after,
      s = (before ++ c :: "v"%char :: "="%char :: run ++ after)%list /\
      (c = "?"%char \/ c = "&"%char) /\
      run <> [] /\
      ~ In "&"%char run /\
      (after = [] \/ exists r, after = "&"%char :: r).
Proof.
  induction s as [|c s IH]; intros run; [discriminate|].
  cbn [v_group]. destruct (v_group_here (c :: s)) as [run'|] eqn:Ehere.
  - intros [= <-]. unfold v_group_here in Ehere.
    destruct s as [|c1 [|c2 rest]]; try discriminate.
    destruct ((Ascii.eqb c "?" || Ascii.eqb c "&") && Ascii.eqb c1 "v"
              && Ascii.eqb c2 "=") eqn:Ec; [|discriminate].
    apply andb_true_iff in Ec as [Ec E2].
    apply andb_true_iff in Ec as [Ec E1].
    apply Ascii.eqb_eq in E1, E2. subst c1 c2.
    destruct (upto_ampersand_spec rest) as (after & Hrest & Hno & Hafter).
    destruct (upto_ampersand rest) as [|x run0] eqn:Erun; [discriminate|].
    injection Ehere as <-.
    exists [], c, after. cbn [app]. repeat split.
    + now rewrite Hrest at 1.
    + apply orb_true_iff in Ec as [Ec|Ec]; apply Ascii.eqb_eq in Ec; auto.
    + discriminate.
    + exact Hno.
    + exact Hafter.
  - intros Hrun.
    destruct (IH run Hrun) as (before & c0 & after & -> & Hc & Hne & Hno & Ha).
    exists (c :: before), c0, after. repeat split; assumption.
Qed.

(** X19.  What [extractVideoInfoFromCard] returns.  When it returns a
    video, the card has a watch link, the video's [url] is that link's href,
    and its [id] is the value of a [v] parameter of that href: it is not
    empty, holds no ampersand, follows [?v=] or [&v=] there and runs to the
    next ampersand or to the end.  The thumbnail url is built from the id
    and the title is never empty. *)
Theorem extracted_id_is_a_v_parameter card info :
  extractVideoInfoFromCard card = Some info ->
  card_link_href card = Some (info_url info) /\
  (exists before c after,
     info_url info = before ++ String c ("v=" ++ info_id info ++ after) /\
     (c = "?"%char \/ c = "&"%char) /\
     (after = "" \/ exists r, after = String "&" r)) /\
  info_id info <> "" /\
  ~ In "&"%char (list_ascii_of_string (info_id info)) /\
  info_thumbnailUrl info =
    "https://img.youtube.com/vi/" ++ info_id info ++ "/mqdefault.jpg" /\
  info_title info <> "".
Proof.
  unfold extractVideoInfoFromCard.
  destruct (card_link_href card) as [url|]; [|discriminate].
  destruct (v_group (list_ascii_of_string url)) as [run|] eqn:Erun;
    [|discriminate].
  intros [= <-]. cbn.
  destruct (v_group_spec _ _ Erun)
    as (before & c & after & Hurl & Hc & Hne & Hno & Hafter).
  split; [reflexivity|]. split; [|split; [|split; [|split]]].
  - exists (string_of_list_ascii before), c, (string_of_list_ascii after).
    split; [|split; [exact Hc|]].
    + rewrite <- (string_of_list_ascii_of_string url), Hurl.
      rewrite string_of_list_ascii_app. cbn.
      now rewrite string_of_list_ascii_app.
    + destruct Hafter as [->|[r ->]]; [now left|right].
      exists (string_of_list_ascii r). reflexivity.
  - destruct run; [contradiction|discriminate].
  - now rewrite list_ascii_of_string_of_list_ascii.
  - reflexivity.
  - destruct (card_title card) as [text|]; [|discriminate].
    destruct (nonempty text) eqn:E; [|discriminate].
    intros ->. discriminate.
Qed.

Lemma v_group_here_other c s :
  Ascii.eqb c "?" = false -> Ascii.eqb c "&" = false ->
  v_group_here (c :: s) = None.
Proof.
  intros H1 H2. unfold v_group_here.
  destruct s as [|c1 [|c2 rest]]; try reflexivity.
  now rewrite H1, H2.
Qed.

Lemma v_group_skip before s :
  Forall (fun c => Ascii.eqb c "?" = false /\ Ascii.eqb c "&" = false) before ->
  v_group (before ++ s) = v_group s.
Proof.
  induction 1 as [|c before [H1 H2] _ IH]; [reflexivity|].
  cbn [app v_group]. now rewrite v_group_here_other.
Qed.

Lemma upto_ampersand_run run after :
  ~ In "&"%char run ->
  after = [] \/ (exists r, after = "&"%char :: r) ->
  upto_ampersand (run ++ after) = run.
Proof.
  intros Hno Hafter. induction run as [|c run IH]; cbn.
  - destruct Hafter as [->|[r ->]]; reflexivity.
  - destruct (Ascii.eqb c "&") eqn:E.
    + apply Ascii.eqb_eq in E. subst c. destruct Hno. now left.
    + rewrite IH; [reflexivity|]. intros Hin. apply Hno. now right.
Qed.

(** X20.  Link, then id.  From a card whose watch link is a base without
    [?] and [&], then [?v=], then an id that is not empty and holds no [&],
    then nothing or further parameters, [extractVideoInfoFromCard] returns a
    video with exactly that id and that link as url. *)
Theorem watch_link_gives_its_id card base id rest :
  card_link_href card = Some (base ++ "?v=" ++ id ++ rest) ->
  Forall (fun c => Ascii.eqb c "?" = false /\ Ascii.eqb c "&" = false)
    (list_ascii_of_string base) ->
  id <> "" ->
  ~ In "&"%char (list_ascii_of_string id) ->
  rest = "" \/ (exists r, rest = String "&" r) ->
  exists info,
    extractVideoInfoFromCard card = Some info /\
    info_id info = id /\
    info_url info = base ++ "?v=" ++ id ++ rest.
Proof.
  intros Hlink Hbase Hid Hno Hrest. unfold extractVideoInfoFromCard.
  rewrite Hlink.
  assert (list_ascii_of_string (base ++ "?v=" ++ id ++ rest) =
          (list_ascii_of_string base ++
           "?"%char :: "v"%char :: "="%char ::
           list_ascii_of_string id ++ list_ascii_of_string rest)%list) as ->.
  { rewrite <- (list_ascii_of_string_of_list_ascii (_ ++ _)%list).
    f_equal. rewrite string_of_list_ascii_app. cbn.
    now rewrite string_of_list_ascii_app, !string_of_list_ascii_of_string. }
  rewrite v_group_skip by exact Hbase.
  cbn [v_group v_group_here]. cbn [Ascii.eqb Bool.eqb orb andb].
  rewrite upto_ampersand_run; [|exact Hno|].
  - destruct (list_ascii_of_string id) as [|c run] eqn:E.
    + destruct Hid. now rewrite <- (string_of_list_ascii_of_string id), E.
    + eexists. split; [reflexivity|]. cbn [info_id info_url].
      split; [|reflexivity].
      now rewrite <- E, string_of_list_ascii_of_string.
  - destruct Hrest as [->|[r ->]]; [now left|right]. eexists. reflexivity.
Qed.

(** ** Buttons *)



Lemma class_remove_idem c l : class_remove c (class_remove c l) = class_remove c l.
Proof.
  unfold class_remove. induction l as [|x l IH]; cbn; [reflexivity|].
  destruct (String.eqb x c) eqn:E; cbn; [exact IH|]. now rewrite E, IH.
Qed.

Lemma class_remove_comm c1 c2 l :
  class_remove c1 (class_remove c2 l) = class_remove c2 (class_remove c1 l).
Proof.
  unfold class_remove. induction l as [|x l IH]; cbn; [reflexivity|].
  destruct (String.eqb x c2) eqn:E2, (String.eqb x c1) eqn:E1; cbn;
    rewrite ?E1, ?E2; cbn; now rewrite IH.
Qed.

Lemma existsb_class_remove c c' l :
  c <> c' ->
  existsb (String.eqb c) (class_remove c' l) = existsb (String.eqb c) l.
Proof.
  intros Hne. unfold class_remove.
  induction l as [|x l IH]; cbn; [reflexivity|].
  destruct (String.eqb x c') eqn:E; cbn.
  - apply String.eqb_eq in E. subst x. rewrite IH.
    apply String.eqb_neq in Hne. now rewrite Hne.
  - now rewrite IH.
Qed.

Lemma class_remove_add_same c l :
  class_remove c (class_add c l) = class_remove c l.
Proof.
  unfold class_add. destruct (existsb (String.eqb c) l); [reflexivity|].
  unfold class_remove. rewrite List.filter_app. cbn.
  rewrite String.eqb_refl. cbn. apply app_nil_r.
Qed.

Lemma class_remove_add_other c c' l :
  c <> c' -> class_remove c' (class_add c l) = class_add c (class_remove c' l).
Proof.
  intros Hne. unfold class_add. rewrite (existsb_class_remove c c' l Hne).
  destruct (existsb (String.eqb c) l); [reflexivity|].
  unfold class_remove. rewrite List.filter_app. cbn.
  apply String.eqb_neq in Hne. now rewrite Hne.
Qed.

Lemma class_add_idem c l : class_add c (class_add c l) = class_add c l.
Proof.
  unfold class_add. destruct (existsb (String.eqb c) l) eqn:E.
  - now rewrite E.
  - rewrite existsb_app. cbn. now rewrite E, String.eqb_refl.
Qed.

Lemma extractVideoInfoFromButton_same page button button' :
  btn_video_id button' = btn_video_id button ->
  btn_card button' = btn_card button ->
  extractVideoInfoFromButton page button' =
  extractVideoInfoFromButton page button.
Proof.
  intros Hid Hcard. unfold extractVideoInfoFromButton.
  now rewrite Hid, Hcard.
Qed.


(** X22.  [updateButtonState] is idempotent: a second call with the same
    arguments changes nothing, whatever the button and the arguments. *)
Theorem updateButtonState_idempotent page button isSaved isNew videoId :
  updateButtonState page
    (updateButtonState page button isSaved isNew videoId)
    isSaved isNew videoId =
  updateButtonState page button isSaved isNew videoId.
Proof.
  unfold updateButtonState.
  destruct (btn_label button) as [label|] eqn:Hlabel; [|now rewrite Hlabel].
  destruct (isSaved && nonempty (default "" videoId)).
  - cbn [btn_label btn_video_id btn_classes btn_card]. f_equal.
    destruct isNew.
    + rewrite (class_remove_add_other "saved" "watched") by discriminate.
      now rewrite class_remove_idem, class_add_idem.
    + now rewrite class_remove_add_same, class_remove_idem.
  - cbn [btn_label btn_video_id btn_classes btn_card btn_onclick]. f_equal.
    + now rewrite (class_remove_comm "saved" "watched"), !class_remove_idem.
    + match goal with
      | |- context [extractVideoInfoFromButton page ?b'] =>
          rewrite (extractVideoInfoFromButton_same page button b')
            by reflexivity
      end.
      destruct (extractVideoInfoFromButton page button); reflexivity.
Qed.


Lemma updateButtonState_video_id page button isSaved isNew videoId :
  btn_video_id (updateButtonState page button isSaved isNew videoId) =
  btn_video_id button.
Proof.
  unfold updateButtonState. destruct (btn_label button); [|reflexivity].
  destruct (isSaved && _); reflexivity.
Qed.

(** X24.  [checkSavedStatus] changes only the buttons of the video that the
    background found.  Whatever the response, the page has the same buttons
    in the same order with the same video ids; a button that differs from
    what it was carries the id of the video in a successful response, and
    has been marked as saved, new or watched by that video's [is_new].  In
    particular no button changes when the request is rejected, the response
    is missing or is not a success, or no video comes with it. *)
Theorem checkSavedStatus_marks_only_its_video page sendMessage url buttons :
  exists mark,
    checkSavedStatus page sendMessage url buttons = map mark buttons /\
    forall button,
      btn_video_id (mark button) = btn_video_id button /\
      (mark button <> button ->
       exists response id,
         sendMessage
           (VObj [("action", VStr "getVideoByUrl"); ("url", VStr url)]) =
           inr response /\
         truthy (prop response "success") = true /\
         prop (prop response "video") "id" = VStr id /\
         btn_video_id button = Some id /\
         mark button =
           updateButtonState page button true
             (is_Yes (prop (prop response "video") "is_new")) (Some id)).
Proof.
  unfold checkSavedStatus.
  destruct (sendMessage _) as [e|response] eqn:Hsend.
  { exists (fun button => button). rewrite map_id.
    split; [reflexivity|]. intros button. split; [reflexivity|]. now intros []. }
  destruct (nullish response) eqn:Hnull.
  { exists (fun button => button). rewrite map_id.
    split; [destruct response; try discriminate; reflexivity|].
    intros button. split; [reflexivity|]. now intros []. }
  rewrite (get_prop_defined _ _ Hnull).
  destruct (truthy (prop response "success")) eqn:Hsuccess; cbn [andb].
  2: { exists (fun button => button). rewrite map_id.
       split; [reflexivity|]. intros button. split; [reflexivity|].
       now intros []. }
  destruct (truthy (prop response "video")) eqn:Hvideo.
  2: { exists (fun button => button). rewrite map_id.
       split; [reflexivity|]. intros button. split; [reflexivity|].
       now intros []. }
  exists (mark_if_saved page (prop response "video")).
  split; [reflexivity|]. intros button. unfold mark_if_saved.
  destruct (btn_video_id button) as [buttonVideoId|] eqn:Hbutton.
  2: { split; [exact Hbutton|]. now intros []. }
  destruct (nonempty buttonVideoId && same_id _ buttonVideoId) eqn:Hsame.
  2: { split; [exact Hbutton|]. now intros []. }
  split.
  - now rewrite updateButtonState_video_id.
  - intros _. exists response, buttonVideoId.
    apply andb_true_iff in Hsame as [_ Hsame]. unfold same_id in Hsame.
    destruct (prop (prop response "video") "id") as [| | | |s| |];
      try discriminate.
    apply String.eqb_eq in Hsame. subst s.
    repeat split; first [reflexivity | assumption].
Qed.

(** X25.  Save, then check.  After a direct save of a payload with a
    non-empty string [id] and a non-empty string [url] (storage working, no
    record under another id with the same url), [checkSavedStatus] for that
    url, asking the background worker through [chrome.runtime.sendMessage],
    marks exactly the buttons with that video id as saved: as new when the
    payload's [is_new] is ['Yes'], as watched otherwise.  Every other
    button stays as it is. *)
Theorem saved_video_marks_its_buttons b page videoInfo id url (w : world)
    buttons :
  prop videoInfo "id" = VStr id -> nonempty id = true ->
  prop videoInfo "url" = VStr url -> nonempty url = true ->
  w_faults w = [] ->
  (forall k record,
     (w_db w : gmap string value) !! k = Some record ->
     has_url url record = true -> k = id) ->
  let w1 := snd (handleSaveVideo b videoInfo w) in
  checkSavedStatus page (runtime_sendMessage b w1) url buttons =
    map
      (fun button =>
         if decide (btn_video_id button = Some id) then
           updateButtonState page button true
             (is_Yes (prop videoInfo "is_new")) (Some id)
         else button)
      buttons.
Proof.
  intros Hid Hidne Hurl Hurlne Hf Honly w1. subst w1.
  rewrite (direct_save_run b videoInfo id url w Hid Hidne Hurl Hurlne Hf).
  cbn [snd].
  assert (truthy videoInfo = true) as Htruthy
    by (destruct videoInfo; cbn in Hid; try discriminate; reflexivity).
  unfold checkSavedStatus, runtime_sendMessage, background_onMessage.
  rewrite own_sender_not_foreign.
  unfold bind at 1, lift. cbn [get_prop assoc String.eqb Ascii.eqb Bool.eqb default].
  cbn [is_action String.eqb Ascii.eqb Bool.eqb].
  unfold bind, handleGetVideoByUrl, try_catch, bind, db_read, next_fault.
  cbn -[getByUrl last drop length].
  rewrite (lookup_after_save videoInfo id url _ Hurl Honly).
  cbn -[last drop length]. rewrite drop_app_length. cbn. rewrite Htruthy.
  apply map_ext. intros button. unfold mark_if_saved.
  destruct (btn_video_id button) as [buttonVideoId|].
  2: { now rewrite decide_False by discriminate. }
  rewrite Hid. cbn [same_id].
  destruct (String.eqb id buttonVideoId) eqn:E.
  - apply String.eqb_eq in E. subst buttonVideoId.
    rewrite Hidne, decide_True by reflexivity. reflexivity.
  - apply String.eqb_neq in E. rewrite andb_false_r.
    rewrite decide_False by congruence. reflexivity.
Qed.

(** * Concrete runs of the further properties *)

(** [unknown_action_is_refused] on a [deleteVideo] request of the extension
    itself. *)
Lemma unknown_action_is_refused_witness :
  background_onMessage (browser_with_clipboard "")
    (VObj [("action", VStr "deleteVideo")])
    (own_sender (browser_with_clipboard "")) (world_with store_a) =
    (inr false,
     responded (world_with store_a) (response_failure "Unknown action")).
Proof.
  apply (unknown_action_is_refused (browser_with_clipboard "")
           (VObj [("action", VStr "deleteVideo")])
           (own_sender (browser_with_clipboard "")) (world_with store_a));
    reflexivity.
Defined.

(** [own_sender_is_answered_once] on a [getAllVideos] request. *)
Lemma own_sender_is_answered_once_witness :
  exists w' response,
    background_onMessage (browser_with_clipboard "")
      (VObj [("action", VStr "getAllVideos")])
      (own_sender (browser_with_clipboard "")) (world_with store_a) =
      (inr true, responded w' response) /\
    w_sent w' = [].
Proof.
  destruct (own_sender_is_answered_once (browser_with_clipboard "")
              (VObj [("action", VStr "getAllVideos")])
              (own_sender (browser_with_clipboard "")) (world_with store_a)
              eq_refl) as [_ Hobject].
  apply (Hobject eq_refl).
Defined.

(** [page_text_wins] in a browser whose active tab gives text: the
    clipboard of the background, readable or not, plays no part. *)
Lemma page_text_wins_witness :
  acquire (browser_with_tab "[1]" "[2]") = ("[1]", "injected_script") /\
  acquire (with_clipboard (browser_with_tab "[1]" "[2]") (inl disk_full)) =
    acquire (browser_with_tab "[1]" "[2]").
Proof.
  destruct (page_text_wins (browser_with_tab "[1]" "[2]") (inl disk_full)
              eq_refl) as [Hpage Hsame].
  split; [rewrite Hpage; reflexivity|exact Hsame].
Defined.

(** [relay_only_after_failed_injection] in that browser, with a content
    script that would answer another text. *)
Lemma relay_only_after_failed_injection_witness :
  acquire
    (with_relay (browser_with_tab "[1]" "[2]")
       (fun _ =>
          inr (Some {| reply_success := true; reply_text := Some "[3]" |}))) =
    acquire (browser_with_tab "[1]" "[2]").
Proof.
  apply (relay_only_after_failed_injection (browser_with_tab "[1]" "[2]")).
  intros tab. eexists. reflexivity.
Defined.

(** [no_text_no_sync] with an empty clipboard and no active tab. *)
Lemma no_text_no_sync_witness :
  handleSyncVideos (browser_with_clipboard "") (world_with store_a) =
    (inr tt,
     responded (world_with store_a) (response_no_clipboard "background_script")).
Proof.
  apply (no_text_no_sync (browser_with_clipboard "") (world_with store_a)).
  reflexivity.
Defined.




(** [catalog_only_grows] on a sync followed by a save, for the key [a]. *)
Lemma catalog_only_grows_witness :
  is_Some
    ((w_db
        (perform_all
           [ SyncVideos (browser_with_clipboard payload_a);
             SaveVideo (browser_with_clipboard "") video_v1 ]
           (world_with store_a)) : gmap string value) !! "a").
Proof.
  apply (catalog_only_grows
           [ SyncVideos (browser_with_clipboard payload_a);
             SaveVideo (browser_with_clipboard "") video_v1 ]
           (world_with store_a) "a").
  exists record_a. reflexivity.
Defined.

Lemma store_a_keyed : keyed store_a.
Proof.
  intros k record Hl. unfold store_a in Hl.
  apply lookup_singleton_Some in Hl as [<- <-].
  reflexivity.
Qed.

(** [catalog_lists_distinct_ids] after a sync and a save over the store
    that holds [a]. *)
Lemma catalog_lists_distinct_ids_witness :
  exists videos,
    handleGetAllVideos
      (perform_all
         [ SyncVideos (browser_with_clipboard payload_a_watched);
           SaveVideo (browser_with_clipboard "") video_v1 ]
         (world_with store_a)) =
      (inr tt,
       responded
         (snd (next_fault
                 (perform_all
                    [ SyncVideos (browser_with_clipboard payload_a_watched);
                      SaveVideo (browser_with_clipboard "") video_v1 ]
                    (world_with store_a))))
         (VObj [("success", VBool true); ("videos", VArr videos)])) /\
    NoDup ((fun record => prop record "id") <$> videos) /\
    (forall record,
       record ∈ videos <->
       exists k,
         (w_db
            (perform_all
               [ SyncVideos (browser_with_clipboard payload_a_watched);
                 SaveVideo (browser_with_clipboard "") video_v1 ]
               (world_with store_a)) : gmap string value) !! k =
           Some record).
Proof.
  apply (catalog_lists_distinct_ids
           [ SyncVideos (browser_with_clipboard payload_a_watched);
             SaveVideo (browser_with_clipboard "") video_v1 ]
           (world_with store_a)).
  - exact store_a_keyed.
  - vm_compute. reflexivity.
Defined.

Lemma store_a_no_url url k record :
  store_a !! k = Some record -> has_url url record = false.
Proof.
  intros Hl. unfold store_a in Hl.
  apply lookup_singleton_Some in Hl as [<- <-]. reflexivity.
Qed.

(** [saved_video_is_found_by_url] on the direct save of [v1] into the store
    that holds [a]. *)
Lemma saved_video_is_found_by_url_witness :
  w_sent
    (snd (handleSaveVideo (browser_with_clipboard "") video_v1
            (world_with store_a))) =
    [response_message "Video saved to database"] /\
  handleGetVideoByUrl (VStr "https://x/v1")
    (snd (handleSaveVideo (browser_with_clipboard "") video_v1
            (world_with store_a))) =
    (inr tt,
     responded
       (snd (handleSaveVideo (browser_with_clipboard "") video_v1
               (world_with store_a)))
       (VObj [("success", VBool true); ("video", video_v1)])).
Proof.
  apply (saved_video_is_found_by_url (browser_with_clipboard "") video_v1
           "v1" "https://x/v1" (world_with store_a));
    try reflexivity.
  intros k record Hl Hurl.
  rewrite (store_a_no_url _ k record Hl) in Hurl. discriminate.
Defined.

(** [content_script_answers_every_request] on a [saveVideo] request of the
    extension itself: the content script does not know the action. *)
Lemma content_script_answers_every_request_witness :
  exists response,
    content_onMessage (browser_with_clipboard "")
      (VObj [("action", VStr "saveVideo"); ("data", video_v1)])
      (own_sender (browser_with_clipboard "")) (world_with store_a) =
      (inr false, responded (world_with store_a) response) /\
    (foreign (browser_with_clipboard "")
       (own_sender (browser_with_clipboard "")) = false ->
     is_action
       (prop (VObj [("action", VStr "saveVideo"); ("data", video_v1)]) "action")
       "readClipboard" = false ->
     response = response_failure "Unknown action").
Proof.
  apply (content_script_answers_every_request (browser_with_clipboard "")
           (VObj [("action", VStr "saveVideo"); ("data", video_v1)])
           (own_sender (browser_with_clipboard "")) (world_with store_a)).
  reflexivity.
Defined.

(** [relay_delivers_page_clipboard]: the active tab refuses the injection,
    and its content script reads the payload from the clipboard. *)
Lemma relay_delivers_page_clipboard_witness :
  acquire
    (with_relay (browser_locked_tab (fun _ => inr None))
       (relay_through (browser_with_clipboard payload_a) (world_with ∅))) =
    (payload_a, "content_script").
Proof.
  apply (relay_delivers_page_clipboard
           (browser_locked_tab (fun _ => inr None))
           (browser_with_clipboard payload_a) (world_with ∅)
           {| tab_id := Some 7 |} [] 6
           (ErrorObject "Error" "Cannot access contents of the page")
           payload_a);
    reflexivity.
Defined.

(** [video_page_kinds] on a video watched from a playlist. *)
Lemma video_page_kinds_witness :
  isYouTubeIndexPage location_watch_in_list = false /\
  isYouTubePlaylistPage location_watch_in_list = true.
Proof.
  destruct (video_page_kinds location_watch_in_list eq_refl) as [Hindex Hlist].
  split; [exact Hindex|rewrite Hlist; reflexivity].
Defined.

(** [index_page_without_query] on a channel page. *)
Lemma index_page_without_query_witness :
  isYouTubeIndexPage location_channel = true /\
  isYouTubePlaylistPage location_channel = false.
Proof.
  destruct (index_page_without_query location_channel eq_refl)
    as [Hindex Hlist].
  split; [rewrite Hindex; reflexivity|apply Hlist; reflexivity].
Defined.

(** [extracted_id_is_a_v_parameter] on the card of the video [abc]. *)
Lemma extracted_id_is_a_v_parameter_witness :
  extractVideoInfoFromCard card_abc = Some info_abc /\
  (exists before c after,
     info_url info_abc = before ++ String c ("v=" ++ info_id info_abc ++ after) /\
     (c = "?"%char \/ c = "&"%char) /\
     (after = "" \/ exists r, after = String "&" r)) /\
  info_id info_abc <> "".
Proof.
  split; [reflexivity|].
  destruct (extracted_id_is_a_v_parameter card_abc info_abc eq_refl)
    as (_ & Hurl & Hid & _).
  split; [exact Hurl|exact Hid].
Defined.

(** [watch_link_gives_its_id] on the same card. *)
Lemma watch_link_gives_its_id_witness :
  exists info,
    extractVideoInfoFromCard card_abc = Some info /\
    info_id info = "abc" /\
    info_url info = "https://www.youtube.com/watch" ++ "?v=" ++ "abc" ++ "&t=10s".
Proof.
  apply (watch_link_gives_its_id card_abc "https://www.youtube.com/watch"
           "abc" "&t=10s").
  - reflexivity.
  - repeat constructor.
  - discriminate.
  - cbn. intros [E|[E|[E|[]]]]; discriminate.
  - right. eexists. reflexivity.
Defined.



(** [saved_video_marks_its_buttons]: the video [abc] is saved as watched;
    of two buttons on the page, the one of [abc] is marked. *)
Lemma saved_video_marks_its_buttons_witness :
  let videoInfo :=
    VObj [ ("id", VStr "abc");
           ("url", VStr "https://www.youtube.com/watch?v=abc");
           ("is_new", VStr "No") ] in
  let w1 :=
    snd (handleSaveVideo (browser_with_clipboard "") videoInfo
           (world_with store_a)) in
  let other :=
    {| btn_video_id := Some "xyz"; btn_label := Some label_save;
       btn_classes := ["save-to-play-btn"]; btn_href := "#";
       btn_title := "Save video to Play"; btn_onclick := None;
       btn_card := None |} in
  checkSavedStatus page_channel
    (runtime_sendMessage (browser_with_clipboard "") w1)
    "https://www.youtube.com/watch?v=abc" [button_abc; other] =
    [ updateButtonState page_channel button_abc true false (Some "abc");
      other ].
Proof.
  cbv zeta.
  rewrite (saved_video_marks_its_buttons (browser_with_clipboard "")
             page_channel
             (VObj [ ("id", VStr "abc");
                     ("url", VStr "https://www.youtube.com/watch?v=abc");
                     ("is_new", VStr "No") ])
             "abc" "https://www.youtube.com/watch?v=abc"
             (world_with store_a));
    try reflexivity.
  intros k record Hl Hurl.
  rewrite (store_a_no_url _ k record Hl) in Hurl. discriminate.
Defined.
